(** * rtwo.meta: the administrative "meta" layer over cloud drivers

    A shallow embedding of [src/rtwo/meta.py] (Python 2):

    - [Registry]: the class-level cache [Meta.metas] with [create_meta],
      [get_meta] and [reset];
    - [Fleet]: [OSMeta.stop_all_instances], [OSMeta.destroy_all_instances]
      and [OSMeta.remove_metadata_deployed] as programs over the calls of
      the wrapped driver;
    - [PyNum] and [Capacity]: Python numbers (arbitrary-precision integers
      and IEEE 754 binary64 floats) and the occupancy arithmetic of
      [OSMeta.total_remaining], [_cpu_stats], [_ram_stats], [_disk_stats]
      and [occupancy]. *)

From Stdlib Require Import ZArith Lia Bool List.
From Stdlib Require Import Floats.SpecFloat.
From stdpp Require Import gmap strings list.

Set Default Proof Using "Type".

(** ** Exceptions and results

    Python code either returns a value or raises.  Only the exceptions the
    modelled code can meet are distinguished; whatever the wrapped driver
    raises is opaque and propagates unchanged. *)

Inductive exn :=
| ZeroDivisionError
| OverflowError
| NotImplementedError
| DriverError (code : nat).

Inductive result (A : Type) :=
| Ok (a : A)
| Raise (e : exn).
Arguments Ok {A} a.
Arguments Raise {A} e.

Definition result_bind {A B} (r : result A) (k : A -> result B) : result B :=
  match r with
  | Ok a => k a
  | Raise e => Raise e
  end.

(** ** Fleet operations *)

Module Fleet.

(** An instance as the loop sees it: an identifier and what
    [instance.get_status()] answers. *)
Record instance := { inst_id : string; inst_status : string }.

Definition get_status (i : instance) : string := inst_status i.

Inductive log_message :=
| Destroyed (i : instance)
| Stopped (i : instance).

(** The calls made on collaborators, in the order they are made. *)
Inductive call :=
| ex_list_all_instances
| destroy_instance (i : instance)
| stop_instance (i : instance)
| logger_debug (m : log_message)
| OSAccountDriver_new
| list_usergroup_names
| delete_tenant_network (username tenant_name : string)
| ex_get_image_metadata (machine : string)
| ex_delete_image_metadata (machine key : string).

Definition trace := list call.

(** The collaborators (admin driver, its connection, the account driver)
    are outside this file: they are a state [W] and one transition per
    call, each of which may raise. *)
Record driver (W : Type) := {
  drv_list_all_instances : W -> W * result (list instance);
  drv_destroy_instance : instance -> W -> W * result unit;
  drv_stop_instance : instance -> W -> W * result unit;
  drv_account_driver : W -> W * result unit;
  drv_list_usergroup_names : W -> W * result (list string);
  drv_delete_tenant_network : string -> string -> W -> W * result unit;
  drv_get_image_metadata : string -> W -> W * result (gmap string string);
  drv_delete_image_metadata : string -> string -> W -> W * result unit
}.
Arguments drv_list_all_instances {W}.
Arguments drv_destroy_instance {W}.
Arguments drv_stop_instance {W}.
Arguments drv_account_driver {W}.
Arguments drv_list_usergroup_names {W}.
Arguments drv_delete_tenant_network {W}.
Arguments drv_get_image_metadata {W}.
Arguments drv_delete_image_metadata {W}.

Section Programs.
Context {W : Type}.
Variable D : driver W.

(** State (collaborators and the calls made so far) and exceptions. *)
Definition M (A : Type) : Type := W * trace -> (W * trace) * result A.

Definition ret {A} (a : A) : M A := fun s => (s, Ok a).

Definition bind {A B} (m : M A) (k : A -> M B) : M B :=
  fun s =>
    match m s with
    | (s', Ok a) => k a s'
    | (s', Raise e) => (s', Raise e)
    end.

Definition invoke {A} (c : call) (f : W -> W * result A) : M A :=
  fun s =>
    let '(w', r) := f (fst s) in
    ((w', snd s ++ [c]), r).

Definition log (m : log_message) : M unit :=
  fun s => ((fst s, snd s ++ [logger_debug m]), Ok tt).

(** [for x in l: body(x)]: an exception leaves the loop at once. *)
Fixpoint for_each {A} (l : list A) (body : A -> M unit) : M unit :=
  match l with
  | [] => ret tt
  | x :: l' => bind (body x) (fun _ => for_each l' body)
  end.

#[local] Instance M_ret : MRet M := @ret.
#[local] Instance M_bind : MBind M := fun A B k m => bind m k.

Definition all_instances : M (list instance) :=
  invoke ex_list_all_instances (drv_list_all_instances D).

Definition stop_all_instances (destroy : bool) : M bool :=
  insts ← all_instances;
  for_each insts (fun i =>
    if destroy then
      invoke (destroy_instance i) (drv_destroy_instance D i);;
      log (Destroyed i)
    else
      if String.eqb (get_status i) "active" then
        invoke (stop_instance i) (drv_stop_instance D i);;
        log (Stopped i)
      else ret tt);;
  invoke OSAccountDriver_new (drv_account_driver D);;
  (if destroy then
     names ← invoke list_usergroup_names (drv_list_usergroup_names D);
     for_each names (fun username =>
       let tenant_name := username in
       invoke (delete_tenant_network username tenant_name)
              (drv_delete_tenant_network D username tenant_name))
   else ret tt);;
  ret true.

Definition destroy_all_instances : M bool :=
  insts ← all_instances;
  for_each insts (fun i =>
    invoke (destroy_instance i) (drv_destroy_instance D i);;
    log (Destroyed i));;
  invoke OSAccountDriver_new (drv_account_driver D);;
  names ← invoke list_usergroup_names (drv_list_usergroup_names D);
  for_each names (fun username =>
    let tenant_name := username in
    invoke (delete_tenant_network username tenant_name)
           (drv_delete_tenant_network D username tenant_name));;
  ret true.

(** Python truth value of [d.get(key)] on a dictionary of strings:
    a missing key gives [None], an empty string is false as well. *)
Definition dict_get_truthy (d : gmap string string) (key : string) : bool :=
  match d !! key with
  | Some v => negb (String.eqb v "")
  | None => false
  end.

Definition remove_metadata_deployed (machine : string) : M unit :=
  machine_metadata ←
    invoke (ex_get_image_metadata machine) (drv_get_image_metadata D machine);
  if dict_get_truthy machine_metadata "deployed" then
    invoke (ex_delete_image_metadata machine "deployed")
           (drv_delete_image_metadata D machine "deployed")
  else ret tt.

(** *** Vocabulary for the properties below *)

(** Every call a program adds to the history satisfies [P]. *)
Definition emits (P : call -> Prop) {A} (m : M A) : Prop :=
  forall s, exists tr, snd (fst (m s)) = snd s ++ tr /\ Forall P tr.

(** What [stop_all_instances(destroy=False)] may call once
    [all_instances()] has returned [insts]. *)
Definition stop_only (insts : list instance) (c : call) : Prop :=
  match c with
  | stop_instance i => get_status i = "active" /\ i ∈ insts
  | logger_debug (Stopped _) => True
  | OSAccountDriver_new => True
  | _ => False
  end.

Definition stop_calls (i : instance) : list call :=
  if String.eqb (get_status i) "active"
  then [stop_instance i; logger_debug (Stopped i)]
  else [].

Definition destroy_calls (i : instance) : list call :=
  [destroy_instance i; logger_debug (Destroyed i)].

Definition stop_body (i : instance) : M unit :=
  if String.eqb (get_status i) "active" then
    bind (invoke (stop_instance i) (drv_stop_instance D i))
         (fun _ => log (Stopped i))
  else ret tt.

Definition destroy_body (i : instance) : M unit :=
  bind (invoke (destroy_instance i) (drv_destroy_instance D i))
       (fun _ => log (Destroyed i)).

Definition network_body (username : string) : M unit :=
  invoke (delete_tenant_network username username)
         (drv_delete_tenant_network D username username).

(** No call the bulk operations make on the collaborators raises. *)
Definition never_raises : Prop :=
  (forall w, exists w' insts, drv_list_all_instances D w = (w', Ok insts)) /\
  (forall i w, exists w', drv_destroy_instance D i w = (w', Ok tt)) /\
  (forall i w, exists w', drv_stop_instance D i w = (w', Ok tt)) /\
  (forall w, exists w', drv_account_driver D w = (w', Ok tt)) /\
  (forall w, exists w' names, drv_list_usergroup_names D w = (w', Ok names)) /\
  (forall u t w, exists w', drv_delete_tenant_network D u t w = (w', Ok tt)).

(** Running a program from a state with an empty call history. *)
Definition run {A} (m : M A) (w : W) : (W * trace) * result A := m (w, []).
Definition calls_of {A} (m : M A) (w : W) : trace := snd (fst (run m w)).
Definition outcome {A} (m : M A) (w : W) : result A := snd (run m w).

End Programs.

Arguments M : clear implicits.

End Fleet.

(** ** The registry of Meta objects *)

Module Registry.

(** The classes on which the class methods can be called. *)
Inductive meta_class := Meta | AWSMeta | EucaMeta | OSMeta.

#[export] Instance meta_class_eq_dec : EqDecision meta_class.
Proof. solve_decision. Defined.

Section Registry.
(** [rtwo.provider] and [rtwo.identity] are not part of this file.
    [Provider] is the type of the Python objects that occur as the
    provider half of a cache key (provider classes and provider
    instances alike), [Identity] of those that occur as the identity
    half; both are compared the way dictionary keys are. *)
Context {Provider Identity : Type}.
Context `{Countable Provider} `{Countable Identity}.

(** The class attributes [AWSMeta.provider = AWSProvider],
    [EucaMeta.provider = EucaProvider], [OSMeta.provider = OSProvider]:
    the provider classes themselves. *)
Variables AWSProvider EucaProvider OSProvider : Provider.

(** [provider.metaCls]. *)
Variable metaCls : Provider -> meta_class.

Record Driver := { identity : Identity; provider : Provider; driver_oid : nat }.

(** What [create_admin_driver({})] of a provider-specific subclass does
    (it reads [rtwo.settings] and builds identities and drivers). *)
Variable subclass_admin_driver : meta_class -> Driver -> result Driver.

(** [cls.provider]: [None] on [Meta] itself. *)
Definition cls_provider (cls : meta_class) : option Provider :=
  match cls with
  | Meta => None
  | AWSMeta => Some AWSProvider
  | EucaMeta => Some EucaProvider
  | OSMeta => Some OSProvider
  end.

Definition key : Type := option Provider * Identity.

(** A Meta object; [meta_oid] is its identity as a Python object. *)
Record meta := {
  meta_oid : nat;
  meta_cls : meta_class;
  meta_driver : Driver;
  meta_admin_driver : Driver
}.

(** Dictionaries are objects on a heap; a class either has an attribute
    [metas] of its own or inherits the one of [Meta].  [Meta.metas] is
    bound in the class body. *)
Record state := {
  next_oid : nat;
  heap : gmap nat (gmap key meta);
  base_metas : nat;
  own_metas : meta_class -> option nat
}.

Definition initial : state :=
  {| next_oid := 1; heap := {[ 0 := ∅ ]}; base_metas := 0; own_metas := fun _ => None |}.

(** The dictionary object [cls.metas] evaluates to. *)
Definition metas_ref (cls : meta_class) (s : state) : nat :=
  match cls with
  | Meta => base_metas s
  | _ => default (base_metas s) (own_metas s cls)
  end.

Definition metas_of (cls : meta_class) (s : state) : gmap key meta :=
  default ∅ (heap s !! metas_ref cls s).

Definition create_admin_driver (cls : meta_class) (d : Driver) : result Driver :=
  match cls with
  | Meta => Raise NotImplementedError
  | _ => subclass_admin_driver cls d
  end.

(** [metaCls(driver, admin_driver)]: a new object, then [__init__]. *)
Definition new_meta (cls : meta_class) (d : Driver) (admin_driver : option Driver)
    (s : state) : state * result meta :=
  let oid := next_oid s in
  let s' := {| next_oid := S oid; heap := heap s;
               base_metas := base_metas s; own_metas := own_metas s |} in
  match admin_driver with
  | Some a =>
      (s', Ok {| meta_oid := oid; meta_cls := cls; meta_driver := d;
                 meta_admin_driver := a |})
  | None =>
      match create_admin_driver cls d with
      | Ok a =>
          (s', Ok {| meta_oid := oid; meta_cls := cls; meta_driver := d;
                     meta_admin_driver := a |})
      | Raise e => (s', Raise e)
      end
  end.

Definition create_meta (cls : meta_class) (d : Driver) (admin_driver : option Driver)
    (s : state) : state * result meta :=
  match new_meta (metaCls (provider d)) d admin_driver s with
  | (s1, Ok m) =>
      let r := metas_ref cls s1 in
      let dict := <[ (Some (provider d), identity d) := m ]> (metas_of cls s1) in
      ({| next_oid := next_oid s1; heap := <[ r := dict ]> (heap s1);
          base_metas := base_metas s1; own_metas := own_metas s1 |}, Ok m)
  | (s1, Raise e) => (s1, Raise e)
  end.

(** A Meta object defines neither [__nonzero__] nor [__len__], so
    [cls.metas.get(id)] is true exactly when the key is present. *)
Definition get_meta (cls : meta_class) (d : Driver) (s : state) : state * result meta :=
  let id := (cls_provider cls, identity d) in
  match metas_of cls s !! id with
  | Some m => (s, Ok m)
  | None => create_meta cls d None s
  end.

(** The class method [reset] (it shadows the instance method of the
    same name): [cls.metas = {}] binds a new dictionary on [cls]. *)
Definition reset (cls : meta_class) (s : state) : state :=
  let r := next_oid s in
  {| next_oid := S r;
     heap := <[ r := ∅ ]> (heap s);
     base_metas := match cls with Meta => r | _ => base_metas s end;
     own_metas := match cls with
                  | Meta => own_metas s
                  | _ => fun c => if decide (c = cls) then Some r else own_metas s c
                  end |}.

(** Every key of every dictionary has a provider in its first half. *)
Definition provider_keyed (s : state) : Prop :=
  forall r dict k m,
    heap s !! r = Some dict -> dict !! k = Some m -> is_Some (fst k).

End Registry.

End Registry.

(** ** Python numbers *)

Module PyNum.

(** A Python float is an IEEE 754 binary64 number. *)
Definition prec : Z := 53.
Definition emax : Z := 1024.

(** The hypervisor counters and the footprints of a size are integers
    (Python [int]/[long], of arbitrary size); the arithmetic of the module
    produces floats from them. *)
Inductive pyval :=
| PyInt (z : Z)
| PyFloat (f : spec_float).

(** [sys.maxint] is the largest C [long]: it depends on whether a [long]
    has 32 or 64 bits on the platform. *)
Inductive platform := Long32 | Long64.

Definition sys_maxint (p : platform) : Z :=
  match p with
  | Long32 => 2 ^ 31 - 1
  | Long64 => 2 ^ 63 - 1
  end.

(** [float(n)] for an integer [n]: correctly rounded (to nearest, ties to
    even); [OverflowError] when the rounded value is not finite. *)
Definition float_of_int (n : Z) : result spec_float :=
  match binary_normalize prec emax n 0 false with
  | S754_infinity _ => Raise OverflowError
  | f => Ok f
  end.

Definition is_zero (f : spec_float) : bool :=
  match f with
  | S754_zero _ => true
  | _ => false
  end.

(** [a / b] on floats: [ZeroDivisionError] on a zero divisor, the IEEE
    quotient otherwise. *)
Definition float_div (a b : spec_float) : result spec_float :=
  if is_zero b then Raise ZeroDivisionError else Ok (SFdiv prec emax a b).

(** C [floor] on a double: the result is a double again. *)
Definition SFfloor (f : spec_float) : spec_float :=
  match f with
  | S754_finite s m e =>
      if (0 <=? e)%Z then f
      else binary_normalize prec emax (cond_Zopp s (Zpos m) / 2 ^ (- e)) 0 s
  | _ => f
  end.

(** [math.floor(x)] of Python 2: the argument is converted to a float and
    the result is a float. *)
Definition floor (x : pyval) : result pyval :=
  match x with
  | PyInt n => result_bind (float_of_int n) (fun f => Ok (PyFloat (SFfloor f)))
  | PyFloat f => Ok (PyFloat (SFfloor f))
  end.

(** The exact value of a number, for comparisons: Python compares an
    [int] with a [float] by value, without rounding the [int]. *)
Inductive exact :=
| NaN
| NegInf
| Finite (m e : Z)   (* m * 2^e *)
| PosInf.

Definition exact_of_float (f : spec_float) : exact :=
  match f with
  | S754_zero _ => Finite 0 0
  | S754_infinity s => if s then NegInf else PosInf
  | S754_nan => NaN
  | S754_finite s m e => Finite (cond_Zopp s (Zpos m)) e
  end.

Definition exact_of (x : pyval) : exact :=
  match x with
  | PyInt n => Finite n 0
  | PyFloat f => exact_of_float f
  end.

(** [m1 * 2^e1 < m2 * 2^e2], on a common exponent. *)
Definition dyadic_ltb (m1 e1 m2 e2 : Z) : bool :=
  let e := Z.min e1 e2 in
  (m1 * 2 ^ (e1 - e) <? m2 * 2 ^ (e2 - e))%Z.

Definition exact_ltb (a b : exact) : bool :=
  match a, b with
  | NaN, _ | _, NaN => false
  | NegInf, NegInf => false
  | NegInf, _ => true
  | _, NegInf => false
  | PosInf, _ => false
  | _, PosInf => true
  | Finite m1 e1, Finite m2 e2 => dyadic_ltb m1 e1 m2 e2
  end.

Definition py_lt (a b : pyval) : bool := exact_ltb (exact_of a) (exact_of b).

(** The integer a number is equal to, when it is equal to one. *)
Definition int_value (x : pyval) : option Z :=
  match exact_of x with
  | Finite m e =>
      if (0 <=? e)%Z then Some (m * 2 ^ e)%Z
      else if (m mod 2 ^ (- e) =? 0)%Z then Some (m / 2 ^ (- e))%Z
      else None
  | _ => None
  end.

(** [min(a, b, c)]: the first of the smallest, found with [<]. *)
Definition py_min2 (best item : pyval) : pyval :=
  if py_lt item best then item else best.

Definition py_min3 (a b c : pyval) : pyval := py_min2 (py_min2 a b) c.

End PyNum.

(** ** Occupancy arithmetic of OSMeta *)

Module Capacity.
Import PyNum.

(** The driver-level size ([size._size]): [cpu] and [vcpus] are
    attributes that may be missing. *)
Record node_size := {
  ns_cpu : option Z;
  ns_vcpus : option Z;
  ns_ram : Z;
  ns_disk : Z
}.

Inductive extra_value :=
| ExtraText (s : string)
| ExtraOccupancy (total remaining : pyval).

(** A size as [list_sizes()] of the admin driver returns it. *)
Record size := {
  size_name : string;
  _size : node_size;
  cpu : Z;
  ram : Z;
  extra : gmap string extra_value
}.

(** The dictionary [ex_hypervisor_statistics()] returns. *)
Record hypervisor_statistics := {
  vcpus : Z;
  vcpus_used : Z;
  memory_mb : Z;
  memory_mb_used : Z;
  local_gb : Z;
  local_gb_used : Z
}.

Inductive warning :=
| no_cpu_value (s : size).

(** The three resource dimensions of [occupancy], with the counters it
    reads for each. *)
Inductive dimension := CPU | RAM | Disk.

Definition total_of (d : dimension) (occ : hypervisor_statistics) : Z :=
  match d with
  | CPU => vcpus occ
  | RAM => memory_mb occ
  | Disk => local_gb occ
  end.

Definition used_of (d : dimension) (occ : hypervisor_statistics) : Z :=
  match d with
  | CPU => vcpus_used occ
  | RAM => memory_mb_used occ
  | Disk => local_gb_used occ
  end.

Section Capacity.
Variable plat : platform.

Definition maxint : Z := sys_maxint plat.

(** [float(a) / float(b)] on integers. *)
Definition float_quotient (a b : Z) : result pyval :=
  result_bind (float_of_int a) (fun fa =>
  result_bind (float_of_int b) (fun fb =>
  result_bind (float_div fa fb) (fun q => Ok (PyFloat q)))).

Definition total_remaining (max_ : pyval) (total used size_ : Z)
    : result (pyval * pyval) :=
  if negb (size_ =? 0)%Z then
    result_bind (floor max_) (fun m =>
    result_bind (floor (PyInt ((total - used) / size_))) (fun r =>
    Ok (m, r)))
  else
    result_bind (floor max_) (fun m => Ok (m, PyInt maxint)).

(** The footprint [_cpu_stats] resolves from the driver-level size,
    with the warnings it logs. *)
Definition cpu_count (s : size) : list warning * Z :=
  match ns_cpu (_size s) with
  | Some c => ([], c)
  | None =>
      match ns_vcpus (_size s) with
      | Some c => ([], c)
      | None => ([no_cpu_value s], -1)%Z
      end
  end.

Definition _cpu_stats (s : size) (cpu_total cpu_used : Z)
    : list warning * result (pyval * pyval) :=
  let '(w, cpu_count) := cpu_count s in
  (w,
   result_bind
     (if (0 <? cpu_count)%Z then float_quotient cpu_total (cpu s)
      else Ok (PyInt maxint))
     (fun max_by_cpu => total_remaining max_by_cpu cpu_total cpu_used cpu_count)).

Definition _ram_stats (s : size) (ram_total ram_used : Z) : result (pyval * pyval) :=
  result_bind
    (if (0 <? ns_ram (_size s))%Z then float_quotient ram_total (ns_ram (_size s))
     else Ok (PyInt maxint))
    (fun max_by_ram => total_remaining max_by_ram ram_total ram_used (ram s)).

Definition _disk_stats (s : size) (disk_total disk_used : Z) : result (pyval * pyval) :=
  result_bind
    (if (0 <? ns_disk (_size s))%Z then float_quotient disk_total (ns_disk (_size s))
     else Ok (PyInt maxint))
    (fun max_by_disk =>
       total_remaining max_by_disk disk_total disk_used (ns_disk (_size s))).

(** The call [occupancy] makes for one dimension. *)
Definition dimension_stats (d : dimension) (occ : hypervisor_statistics) (s : size)
    : result (pyval * pyval) :=
  match d with
  | CPU => snd (_cpu_stats s (vcpus occ) (vcpus_used occ))
  | RAM => _ram_stats s (memory_mb occ) (memory_mb_used occ)
  | Disk => _disk_stats s (local_gb occ) (local_gb_used occ)
  end.

(** The size has footprint [f] in dimension [d]: every attribute the
    code reads for that dimension is [f]. *)
Definition footprint_is (d : dimension) (s : size) (f : Z) : Prop :=
  match d with
  | CPU => snd (cpu_count s) = f /\ cpu s = f
  | RAM => ns_ram (_size s) = f /\ ram s = f
  | Disk => ns_disk (_size s) = f
  end.

(** [x] is a smallest element of [l] for Python's [<]. *)
Definition is_least (x : pyval) (l : list pyval) : Prop :=
  x ∈ l /\ forall y, y ∈ l -> py_lt y x = false.

(** The body of the loop of [occupancy] for one size. *)
Definition occupancy_of_size (occ : hypervisor_statistics) (s : size)
    : list warning * result size :=
  let '(w, cpu_r) := _cpu_stats s (vcpus occ) (vcpus_used occ) in
  (w,
   result_bind cpu_r (fun '(total_cpu, remaining_cpu) =>
   result_bind (_ram_stats s (memory_mb occ) (memory_mb_used occ))
     (fun '(total_ram, remaining_ram) =>
   result_bind (_disk_stats s (local_gb occ) (local_gb_used occ))
     (fun '(total_disk, remaining_disk) =>
   let remaining := py_min3 remaining_cpu remaining_ram remaining_disk in
   let total := py_min3 total_cpu total_ram total_disk in
   Ok {| size_name := size_name s; _size := _size s; cpu := cpu s; ram := ram s;
         extra := <[ "occupancy" := ExtraOccupancy total remaining ]> (extra s) |})))).

(** [occupancy] on what [ex_hypervisor_statistics()] and [list_sizes()]
    returned: the sizes, each with its occupancy, unless a size raises. *)
Fixpoint occupancy_loop (occ : hypervisor_statistics) (sizes : list size)
    : list warning * result (list size) :=
  match sizes with
  | [] => ([], Ok [])
  | s :: rest =>
      match occupancy_of_size occ s with
      | (w, Ok s') =>
          let '(w', r) := occupancy_loop occ rest in
          (w ++ w', result_bind r (fun rest' => Ok (s' :: rest')))
      | (w, Raise e) => (w, Raise e)
      end
  end.

Definition occupancy (occ : hypervisor_statistics) (sizes : list size)
    : list warning * result (list size) :=
  occupancy_loop occ sizes.

End Capacity.

End Capacity.

(** ** Concrete collaborators, used to exercise the programs *)

Module Sample.
Import Fleet.

(** A driver whose calls all succeed: it lists [insts] and [names] and
    answers [metadata] for every image. *)
Definition quiet (insts : list instance) (names : list string)
    (metadata : gmap string string) : driver unit :=
  {| drv_list_all_instances := fun w => (w, Ok insts);
     drv_destroy_instance := fun _ w => (w, Ok tt);
     drv_stop_instance := fun _ w => (w, Ok tt);
     drv_account_driver := fun w => (w, Ok tt);
     drv_list_usergroup_names := fun w => (w, Ok names);
     drv_delete_tenant_network := fun _ _ w => (w, Ok tt);
     drv_get_image_metadata := fun _ w => (w, Ok metadata);
     drv_delete_image_metadata := fun _ _ w => (w, Ok tt) |}.

Definition vm1 : instance := {| inst_id := "vm1"; inst_status := "active" |}.
Definition vm2 : instance := {| inst_id := "vm2"; inst_status := "shutoff" |}.
Definition vm3 : instance := {| inst_id := "vm3"; inst_status := "active" |}.

Definition fleet : driver unit := quiet [vm1; vm2; vm3] ["alice"; "bob"] ∅.

(** A size known to the driver by [vcpus] only, with the same footprint
    on the size itself. *)
Definition flavor (cpus ram_mb disk_gb : Z) : Capacity.size :=
  {| Capacity.size_name := "m1.example";
     Capacity._size := {| Capacity.ns_cpu := None; Capacity.ns_vcpus := Some cpus;
                          Capacity.ns_ram := ram_mb; Capacity.ns_disk := disk_gb |};
     Capacity.cpu := cpus; Capacity.ram := ram_mb; Capacity.extra := ∅ |}.

(** A size whose own [cpu] attribute is [own_cpu] while the driver-level
    size has 4 [vcpus]. *)
Definition mismatched (own_cpu : Z) : Capacity.size :=
  {| Capacity.size_name := "m1.mismatched";
     Capacity._size := {| Capacity.ns_cpu := None; Capacity.ns_vcpus := Some 4%Z;
                          Capacity.ns_ram := 2048%Z; Capacity.ns_disk := 20%Z |};
     Capacity.cpu := own_cpu; Capacity.ram := 2048%Z; Capacity.extra := ∅ |}.

Definition hypervisors (cpus cpus_used ram_mb ram_used disk_gb disk_used : Z)
    : Capacity.hypervisor_statistics :=
  {| Capacity.vcpus := cpus; Capacity.vcpus_used := cpus_used;
     Capacity.memory_mb := ram_mb; Capacity.memory_mb_used := ram_used;
     Capacity.local_gb := disk_gb; Capacity.local_gb_used := disk_used |}.

(** A registry whose provider and identity keys are strings: the class
    attributes are the provider classes, the driver below carries a
    provider instance. *)
Definition os_driver : @Registry.Driver string string :=
  {| Registry.identity := "alice"; Registry.provider := "OSProvider()";
     Registry.driver_oid := 7 |}.

Definition get_meta_by_name :=
  Registry.get_meta (Identity:=string) "AWSProvider" "EucaProvider" "OSProvider"
    (fun _ => Registry.OSMeta) (fun _ d => Ok d).

End Sample.

(** ** Credentials and admin drivers *)

Module Credentials.

(** The values found in credential dictionaries and in [rtwo.settings]:
    strings, or [None]. *)
Inductive pyobj :=
| PyNone
| PyStr (s : string).

Definition truthy (v : pyobj) : bool :=
  match v with
  | PyNone => false
  | PyStr s => negb (String.eqb s "")
  end.

(** [d.get(k, dflt)]. *)
Definition dict_get (d : gmap string pyobj) (k : string) (dflt : pyobj) : pyobj :=
  default dflt (d !! k).

Inductive error :=
| AttributeError
| ValueError.

Inductive outcome (A : Type) :=
| Returns (a : A)
| Raises (e : error).
Arguments Returns {A} a.
Arguments Raises {A} e.

Definition and_then {A B} (o : outcome A) (k : A -> outcome B) : outcome B :=
  match o with
  | Returns a => k a
  | Raises e => Raises e
  end.

(** [_split_creds]: a tuple of two or of three values.  [creds] is
    [None] when the caller leaves the default of [create_admin_driver]
    in place, and [None] has no [get]. *)
Definition _split_creds (creds : option (gmap string pyobj))
    (default_key default_secret default_tenant : pyobj) : outcome (list pyobj) :=
  match creds with
  | None => Raises AttributeError
  | Some creds =>
      let key := dict_get creds "key" default_key in
      let secret := dict_get creds "secret" default_secret in
      let tenant :=
        dict_get creds "ex_project_name"
          (dict_get creds "ex_tenant_name" default_tenant) in
      if truthy tenant then Returns [key; secret; tenant]
      else Returns [key; secret]
  end.

(** The attributes of [rtwo.settings] that [EucaMeta] and [OSMeta] read;
    [None] for an attribute that is not set. *)
Record settings := {
  EUCA_ADMIN_KEY : option pyobj;
  EUCA_ADMIN_SECRET : option pyobj;
  OPENSTACK_ADMIN_KEY : option pyobj;
  OPENSTACK_ADMIN_SECRET : option pyobj;
  OPENSTACK_ADMIN_TENANT : option pyobj
}.

(** [settings.NAME]. *)
Definition setting (v : option pyobj) : outcome pyobj :=
  match v with
  | Some x => Returns x
  | None => Raises AttributeError
  end.

(** The identities and drivers are built by [rtwo.identity] and
    [rtwo.driver]; what is kept of them is what they are built from. *)
Inductive provider_ref :=
| self_provider       (* self.provider *)
| new_OSProvider.     (* OSProvider() *)

Record identity := {
  identity_provider : provider_ref;
  identity_key : pyobj;
  identity_secret : pyobj;
  identity_ex_tenant_name : option pyobj
}.

Record new_driver := {
  driver_provider : provider_ref;
  driver_identity : identity;
  driver_options : gmap string pyobj
}.

Section CreateAdminDriver.
Variable st : settings.

(** [key, secret = t] and [key, secret, tenant = t]. *)
Definition unpack2 (t : list pyobj) : outcome (pyobj * pyobj) :=
  match t with
  | [key; secret] => Returns (key, secret)
  | _ => Raises ValueError
  end.

Definition unpack3 (t : list pyobj) : outcome (pyobj * pyobj * pyobj) :=
  match t with
  | [key; secret; tenant] => Returns (key, secret, tenant)
  | _ => Raises ValueError
  end.

Definition EucaMeta_create_admin_driver (creds : option (gmap string pyobj))
    : outcome new_driver :=
  and_then (setting (EUCA_ADMIN_KEY st)) (fun default_key =>
  and_then (setting (EUCA_ADMIN_SECRET st)) (fun default_secret =>
  and_then (_split_creds creds default_key default_secret PyNone) (fun t =>
  and_then (unpack2 t) (fun '(key, secret) =>
  let identity := {| identity_provider := self_provider; identity_key := key;
                     identity_secret := secret;
                     identity_ex_tenant_name := None |} in
  Returns {| driver_provider := self_provider;
             driver_identity := identity;
             driver_options := ∅ |})))).

Definition OSMeta_create_admin_driver (provider_options : gmap string pyobj)
    (creds : option (gmap string pyobj)) : outcome new_driver :=
  let admin_provider := new_OSProvider in
  let provider_creds := provider_options in
  and_then (setting (OPENSTACK_ADMIN_KEY st)) (fun default_key =>
  and_then (setting (OPENSTACK_ADMIN_SECRET st)) (fun default_secret =>
  and_then (setting (OPENSTACK_ADMIN_TENANT st)) (fun default_tenant =>
  and_then (_split_creds creds default_key default_secret default_tenant) (fun t =>
  and_then (unpack3 t) (fun '(key, secret, tenant) =>
  let admin_identity :=
    {| identity_provider := admin_provider; identity_key := key;
       identity_secret := secret; identity_ex_tenant_name := Some tenant |} in
  Returns {| driver_provider := admin_provider;
             driver_identity := admin_identity;
             driver_options := provider_creds |}))))).

End CreateAdminDriver.

(** The tenant [_split_creds] settles on. *)
Definition resolved_tenant (creds : gmap string pyobj) (default_tenant : pyobj) : pyobj :=
  match creds !! "ex_project_name" with
  | Some v => v
  | None =>
      match creds !! "ex_tenant_name" with
      | Some v => v
      | None => default_tenant
      end
  end.

End Credentials.

(** ** Views of the registry *)

Module Listing.
Import Registry.

Section Listing.
Context {Provider Identity : Type}.
Context `{Countable Provider} `{Countable Identity}.
Variables AWSProvider EucaProvider OSProvider : Provider.
Variable metaCls : Provider -> meta_class.

(** [d.update(other)]: the entries of [other] win. *)
Definition dict_update (d other : gmap (@key Provider Identity) (@meta Provider Identity))
    : gmap key meta :=
  other ∪ d.

(** [get_metas]: [map] applies [super_metas.update] to the three
    dictionaries in turn (Python 2 builds the list at once). *)
Definition get_metas (s : state) : gmap key meta :=
  foldl dict_update ∅
    [metas_of (metaCls AWSProvider) s;
     metas_of (metaCls EucaProvider) s;
     metas_of (metaCls OSProvider) s].

(** Every object and every dictionary was allocated before [next_oid]. *)
Definition allocated (s : @state Provider Identity _ _ _ _) : Prop :=
  base_metas s < next_oid s /\
  (forall c r, own_metas s c = Some r -> r < next_oid s) /\
  (forall r dict k m,
     heap s !! r = Some dict -> dict !! k = Some m -> meta_oid m < next_oid s).

(** No subclass has a [metas] attribute of its own. *)
Definition shared (s : @state Provider Identity _ _ _ _) : Prop :=
  forall c, own_metas s c = None.

End Listing.

End Listing.

(** ** More collaborators *)

Module Fixtures.
Import Fleet.

(** A driver whose state counts the calls made on it, and on which
    destroying or stopping an instance of [bad] raises; every other call
    succeeds. *)
Definition flaky (insts : list instance) (names : list string)
    (bad : instance -> bool) : driver nat :=
  {| drv_list_all_instances := fun w => (S w, Ok insts);
     drv_destroy_instance :=
       fun i w => (S w, if bad i then Raise (DriverError 500) else Ok tt);
     drv_stop_instance :=
       fun i w => (S w, if bad i then Raise (DriverError 500) else Ok tt);
     drv_account_driver := fun w => (S w, Ok tt);
     drv_list_usergroup_names := fun w => (S w, Ok names);
     drv_delete_tenant_network := fun _ _ w => (S w, Ok tt);
     drv_get_image_metadata := fun _ w => (S w, Ok ∅);
     drv_delete_image_metadata := fun _ _ w => (S w, Ok tt) |}.

Definition is_broken (i : instance) : bool := String.eqb (inst_status i) "error".

Definition vm_broken : instance := {| inst_id := "vm9"; inst_status := "error" |}.

(** A fleet whose second instance cannot be destroyed. *)
Definition broken_fleet : driver nat :=
  flaky [Sample.vm1; vm_broken; Sample.vm3] ["alice"] is_broken.

(** A fleet on which every call succeeds. *)
Definition counted_fleet : driver nat :=
  flaky [Sample.vm1; Sample.vm2; Sample.vm3] ["alice"; "bob"] (fun _ => false).

(** A driver whose images are all marked as deployed. *)
Definition deployed_images : driver unit :=
  Sample.quiet [] [] {[ "deployed" := "True" ]}.

(** Sizes without any CPU attribute at the driver level. *)
Definition bare_flavor (own_cpu ram_mb disk_gb : Z) : Capacity.size :=
  {| Capacity.size_name := "m1.bare";
     Capacity._size := {| Capacity.ns_cpu := None; Capacity.ns_vcpus := None;
                          Capacity.ns_ram := ram_mb; Capacity.ns_disk := disk_gb |};
     Capacity.cpu := own_cpu; Capacity.ram := ram_mb; Capacity.extra := ∅ |}.

Definition configured : Credentials.settings :=
  {| Credentials.EUCA_ADMIN_KEY := Some (Credentials.PyStr "euca-key");
     Credentials.EUCA_ADMIN_SECRET := Some (Credentials.PyStr "euca-secret");
     Credentials.OPENSTACK_ADMIN_KEY := Some (Credentials.PyStr "admin");
     Credentials.OPENSTACK_ADMIN_SECRET := Some (Credentials.PyStr "secret");
     Credentials.OPENSTACK_ADMIN_TENANT := Some (Credentials.PyStr "admin-tenant") |}.

Definition os_class_driver : @Registry.Driver string string :=
  {| Registry.identity := "alice"; Registry.provider := "OSProvider";
     Registry.driver_oid := 7 |}.

Definition os_class_driver_again : @Registry.Driver string string :=
  {| Registry.identity := "alice"; Registry.provider := "OSProvider";
     Registry.driver_oid := 8 |}.

(** The class methods on the registry of [Sample.get_meta_by_name]. *)
Definition create_meta_by_name :=
  Registry.create_meta (Provider:=string) (Identity:=string)
    (fun _ => Registry.OSMeta) (fun _ d => Ok d).

Definition get_metas_by_name :=
  Listing.get_metas (Identity:=string) "AWSProvider" "EucaProvider" "OSProvider"
    (fun _ => Registry.OSMeta).

(** The same registry for providers whose [metaCls] is [Meta] itself. *)
Definition get_meta_base :=
  Registry.get_meta (Identity:=string) "AWSProvider" "EucaProvider" "OSProvider"
    (fun _ => Registry.Meta) (fun _ d => Ok d).

Definition create_meta_base :=
  Registry.create_meta (Provider:=string) (Identity:=string)
    (fun _ => Registry.Meta) (fun _ d => Ok d).

(** The registry once [OSMeta.get_meta] has cached one object. *)
Definition one_cached : Registry.state (Provider:=string) (Identity:=string) :=
  fst (Sample.get_meta_by_name Registry.OSMeta os_class_driver Registry.initial).

End Fixtures.

(** ** Vocabulary for the traces of bulk operations *)

Module Traces.
Import Fleet.



(** The state of the collaborators after the calls [f x] for the [x] of
    [l], made in order, each on the state the one before left; the first
    exception ends them. *)
Fixpoint thread {W A} (f : A -> W -> W * result unit) (l : list A) (w : W)
    : W * result unit :=
  match l with
  | [] => (w, Ok tt)
  | x :: l' =>
      match f x w with
      | (w', Ok _) => thread f l' w'
      | (w', Raise e) => (w', Raise e)
      end
  end.

End Traces.

(** ** Vocabulary for whole occupancy queries *)

Module Footprints.
Import PyNum Capacity.

(** The footprint the guards of [_cpu_stats], [_ram_stats] and
    [_disk_stats] test. *)
Definition footprint (d : dimension) (s : size) : Z :=
  match d with
  | CPU => snd (cpu_count s)
  | RAM => ns_ram (_size s)
  | Disk => ns_disk (_size s)
  end.

(** Neither [cpu] nor [vcpus] on the driver-level size. *)
Definition lacks_cpu_value (s : size) : bool :=
  match ns_cpu (_size s), ns_vcpus (_size s) with
  | None, None => true
  | _, _ => false
  end.

(** A size with positive footprints on which its attributes agree, and
    counters, all below 2^53 in absolute value. *)
Definition in_range (occ : hypervisor_statistics) (s : size) : Prop :=
  forall d,
    footprint_is d s (footprint d s) /\
    (0 < footprint d s < 2 ^ 53)%Z /\
    (- 2 ^ 53 < total_of d occ < 2 ^ 53)%Z /\
    (- 2 ^ 53 < total_of d occ - used_of d occ < 2 ^ 53)%Z.

Definition min3 (a b c : Z) : Z := Z.min (Z.min a b) c.

(** How many units of the size fit in the total, and in what is left. *)
Definition fits (occ : hypervisor_statistics) (s : size) (d : dimension) : Z :=
  (total_of d occ / footprint d s)%Z.

Definition still_fits (occ : hypervisor_statistics) (s : size) (d : dimension) : Z :=
  ((total_of d occ - used_of d occ) / footprint d s)%Z.

End Footprints.

(** * Properties *)

(** ** Fleet operations *)

Section FleetFacts.
Import Fleet.
Context {W : Type}.
Variable D : driver W.

Lemma emits_ret P {A} (a : A) : emits P (ret (W:=W) a).
Proof. intros s. exists []. simpl. rewrite app_nil_r. auto. Qed.

Lemma emits_bind P {A B} (m : M W A) (k : A -> M W B) :
  emits P m -> (forall a, emits P (k a)) -> emits P (bind m k).
Proof.
  intros Hm Hk s. unfold bind.
  destruct (Hm s) as (tr1 & E1 & F1).
  destruct (m s) as [s1 [a|e]]; simpl in E1.
  - destruct (Hk a s1) as (tr2 & E2 & F2).
    exists (tr1 ++ tr2). rewrite E2, E1, app_assoc. split; [done|].
    apply Forall_app; auto.
  - exists tr1. auto.
Qed.

Lemma emits_invoke P {A} (c : call) (f : W -> W * result A) :
  P c -> emits P (invoke c f).
Proof.
  intros Hc s. unfold invoke. destruct (f (fst s)) as [w' r]. simpl.
  exists [c]. auto.
Qed.

Lemma emits_log P (m : log_message) :
  P (logger_debug m) -> emits P (log (W:=W) m).
Proof. intros Hc s. exists [logger_debug m]. simpl. auto. Qed.

Lemma emits_for_each P {A} (l : list A) (body : A -> M W unit) :
  (forall x, x ∈ l -> emits P (body x)) -> emits P (for_each l body).
Proof.
  induction l as [|x l IH]; intros Hb; simpl.
  - apply emits_ret.
  - apply emits_bind.
    + apply Hb. left.
    + intros _. apply IH. intros y Hy. apply Hb. by right.
Qed.

Lemma stop_body_emits insts i : i ∈ insts -> emits (stop_only insts) (stop_body D i).
Proof.
  intros Hi. unfold stop_body.
  destruct (String.eqb (get_status i) "active") eqn:E.
  - apply String.eqb_eq in E.
    apply emits_bind; [apply emits_invoke; simpl; auto|].
    intros _. apply emits_log. exact I.
  - apply emits_ret.
Qed.

(** A loop that completes has run every body to its end. *)
Lemma for_each_completes {A} (body : A -> M W unit) (calls : A -> list call) :
  (forall x s s', body x s = (s', Ok tt) -> snd s' = snd s ++ calls x) ->
  forall l s s' u,
    for_each l body s = (s', Ok u) -> snd s' = snd s ++ flat_map calls l.
Proof.
  intros Hb. induction l as [|x l IH]; intros s s' u; simpl.
  - unfold ret. intros [= <- _]. by rewrite app_nil_r.
  - unfold bind. destruct (body x s) as [s1 [[]|e]] eqn:E; [|done].
    intros Hl. apply IH in Hl. apply Hb in E.
    by rewrite Hl, E, app_assoc.
Qed.

Lemma stop_body_completes i s s' :
  stop_body D i s = (s', Ok tt) -> snd s' = snd s ++ stop_calls i.
Proof.
  unfold stop_body, stop_calls.
  destruct (String.eqb (get_status i) "active").
  - unfold bind, invoke, log.
    destruct (drv_stop_instance D i (fst s)) as [w' [[]|e]]; [|done].
    simpl. intros [= <-]. simpl. by rewrite <- app_assoc.
  - unfold ret. intros [= <-]. by rewrite app_nil_r.
Qed.

Lemma destroy_body_completes i s s' :
  destroy_body D i s = (s', Ok tt) -> snd s' = snd s ++ destroy_calls i.
Proof.
  unfold destroy_body, destroy_calls, bind, invoke, log.
  destruct (drv_destroy_instance D i (fst s)) as [w' [[]|e]]; [|done].
  simpl. intros [= <-]. simpl. by rewrite <- app_assoc.
Qed.

Lemma network_body_completes u s s' :
  network_body D u s = (s', Ok tt) ->
  snd s' = snd s ++ [delete_tenant_network u u].
Proof.
  unfold network_body, invoke.
  destruct (drv_delete_tenant_network D u u (fst s)) as [w' [[]|e]]; [|done].
  by intros [= <-].
Qed.

Lemma stop_all_instances_false_unfold :
  stop_all_instances D false =
  bind (all_instances D) (fun insts =>
  bind (for_each insts (stop_body D)) (fun _ =>
  bind (invoke OSAccountDriver_new (drv_account_driver D)) (fun _ =>
  bind (ret tt) (fun _ => ret true)))).
Proof. reflexivity. Qed.

Lemma stop_all_instances_true_unfold :
  stop_all_instances D true =
  bind (all_instances D) (fun insts =>
  bind (for_each insts (destroy_body D)) (fun _ =>
  bind (invoke OSAccountDriver_new (drv_account_driver D)) (fun _ =>
  bind (bind (invoke list_usergroup_names (drv_list_usergroup_names D))
             (fun names => for_each names (network_body D))) (fun _ =>
  ret true)))).
Proof. reflexivity. Qed.

Lemma bind_invoke {A B} (c : call) (f : W -> W * result A) (k : A -> M W B) w tr :
  bind (invoke c f) k (w, tr) =
  match f w with
  | (w1, Ok a) => k a (w1, tr ++ [c])
  | (w1, Raise e) => ((w1, tr ++ [c]), Raise e)
  end.
Proof. unfold bind, invoke. simpl. by destruct (f w) as [w1 [a|e]]. Qed.

Lemma after_listing_emits insts :
  emits (stop_only insts)
    (bind (for_each insts (stop_body D)) (fun _ =>
     bind (invoke OSAccountDriver_new (drv_account_driver D)) (fun _ =>
     bind (ret tt) (fun _ => ret true)))).
Proof.
  apply emits_bind.
  - apply emits_for_each. intros i Hi. by apply stop_body_emits.
  - intros _. apply emits_bind; [by apply emits_invoke|].
    intros _. apply emits_bind; [apply emits_ret|]. intros _. apply emits_ret.
Qed.

(** C6. [stop_all_instances(destroy=False)] calls [stop_instance] only
    on instances of the list [all_instances()] returned whose status is
    "active", never calls [destroy_instance] and never deletes a tenant
    network; when it runs to its end it has stopped exactly the active
    instances, in order, and made no other call than the listing, the
    log lines and the construction of the account driver. *)
Theorem stop_all_instances_without_destroy (w : W) :
  let tr := calls_of (stop_all_instances D false) w in
  (forall i, stop_instance i ∈ tr ->
     get_status i = "active" /\
     exists w1 insts, drv_list_all_instances D w = (w1, Ok insts) /\ i ∈ insts) /\
  (forall i, destroy_instance i ∉ tr) /\
  (forall u t, delete_tenant_network u t ∉ tr) /\
  (forall w1 insts b,
     drv_list_all_instances D w = (w1, Ok insts) ->
     outcome (stop_all_instances D false) w = Ok b ->
     tr = ex_list_all_instances :: flat_map stop_calls insts ++ [OSAccountDriver_new]).
Proof.
  unfold calls_of, outcome, run. rewrite stop_all_instances_false_unfold.
  unfold all_instances. rewrite bind_invoke.
  destruct (drv_list_all_instances D w) as [w1 [insts|e]] eqn:EL; cbn [app].
  - pose proof (after_listing_emits insts (w1, [ex_list_all_instances])) as (tr & E & F).
    cbn [snd app] in E. rewrite E. rewrite Forall_forall in F.
    split; [|split; [|split]].
    + intros i [?|Hi]%elem_of_cons; [done|]. apply F in Hi as [Ha Hb]. eauto.
    + intros i [?|Hi]%elem_of_cons; [done|]. by apply F in Hi.
    + intros u t [?|Hi]%elem_of_cons; [done|]. by apply F in Hi.
    + intros w1' insts' b [= <- <-]. rewrite <- E. clear E F tr.
      unfold bind.
      destruct (for_each insts (stop_body D) (w1, [ex_list_all_instances]))
        as [s1 [[]|e]] eqn:EF; [|done].
      apply (for_each_completes (stop_body D) stop_calls stop_body_completes) in EF.
      unfold invoke, ret.
      destruct (drv_account_driver D (fst s1)) as [w3 [[]|e]]; [|done].
      intros _. cbn in EF |- *. by rewrite EF.
  - split; [|split; [|split]].
    + by intros i ?%list_elem_of_singleton.
    + by intros i ?%list_elem_of_singleton.
    + by intros u t ?%list_elem_of_singleton.
    + done.
Qed.

Lemma map_as_flat_map {A B} (f : A -> B) (l : list A) :
  flat_map (fun x => [f x]) l = map f l.
Proof. induction l; simpl; congruence. Qed.

(** A loop threads the state of the collaborators through the calls of
    its bodies. *)
Lemma for_each_threads {A} (body : A -> M W unit) (f : A -> W -> W * result unit) :
  (forall x s, fst (fst (body x s)) = fst (f x (fst s)) /\
               snd (body x s) = snd (f x (fst s))) ->
  forall l s,
    fst (fst (for_each l body s)) = fst (Traces.thread f l (fst s)) /\
    snd (for_each l body s) = snd (Traces.thread f l (fst s)).
Proof.
  intros Hb. induction l as [|x l IH]; intros s; simpl; [done|].
  unfold bind. destruct (Hb x s) as [H1 H2].
  destruct (body x s) as [s1 r]. destruct (f x (fst s)) as [w' r'].
  simpl in H1, H2. subst w' r'. destruct r as [[]|e]; [apply IH|done].
Qed.

Lemma destroy_body_threads i s :
  fst (fst (destroy_body D i s)) = fst (drv_destroy_instance D i (fst s)) /\
  snd (destroy_body D i s) = snd (drv_destroy_instance D i (fst s)).
Proof.
  unfold destroy_body, bind, invoke, log.
  by destruct (drv_destroy_instance D i (fst s)) as [w' [[]|e]].
Qed.

Lemma network_body_threads u s :
  fst (fst (network_body D u s)) = fst (drv_delete_tenant_network D u u (fst s)) /\
  snd (network_body D u s) = snd (drv_delete_tenant_network D u u (fst s)).
Proof.
  unfold network_body, invoke.
  by destruct (drv_delete_tenant_network D u u (fst s)) as [w' r].
Qed.

Lemma for_each_thread_completes {A} (body : A -> M W unit)
    (f : A -> W -> W * result unit) l s s' :
  (forall x s, fst (fst (body x s)) = fst (f x (fst s)) /\
               snd (body x s) = snd (f x (fst s))) ->
  for_each l body s = (s', Ok tt) ->
  Traces.thread f l (fst s) = (fst s', Ok tt).
Proof.
  intros Hb E. destruct (for_each_threads body f Hb l s) as [H1 H2].
  rewrite E in H1, H2. simpl in H1, H2.
  destruct (Traces.thread f l (fst s)) as [w' r]. simpl in H1, H2. by subst.
Qed.

(** C7. When [stop_all_instances(destroy=True)] runs to its end, it has
    called [destroy_instance] on every instance [all_instances()]
    returned, whatever its status, and then [delete_tenant_network] for
    every name [list_usergroup_names()] returned: the names are those
    listed on the state the account driver was built in, after the last
    instance was destroyed, and the run ends in the state the last
    deletion left. *)
Theorem stop_all_instances_with_destroy (w : W) s' b :
  run (stop_all_instances D true) w = (s', Ok b) ->
  exists w1 insts w2 w3 w4 names,
    drv_list_all_instances D w = (w1, Ok insts) /\
    Traces.thread (drv_destroy_instance D) insts w1 = (w2, Ok tt) /\
    drv_account_driver D w2 = (w3, Ok tt) /\
    drv_list_usergroup_names D w3 = (w4, Ok names) /\
    Traces.thread (fun u => drv_delete_tenant_network D u u) names w4
      = (fst s', Ok tt) /\
    snd s' = ex_list_all_instances :: flat_map destroy_calls insts
             ++ [OSAccountDriver_new; list_usergroup_names]
             ++ map (fun u => delete_tenant_network u u) names /\
    (forall i, i ∈ insts -> destroy_instance i ∈ snd s') /\
    (forall u, u ∈ names -> delete_tenant_network u u ∈ snd s').
Proof.
  unfold run. rewrite stop_all_instances_true_unfold.
  unfold all_instances. rewrite bind_invoke.
  destruct (drv_list_all_instances D w) as [w1 [insts|e]] eqn:EL; [|done].
  unfold bind at 1.
  destruct (for_each insts (destroy_body D) (w1, [] ++ [ex_list_all_instances]))
    as [[w2 tr2] [[]|e]] eqn:EF; [|done].
  pose proof (for_each_thread_completes (destroy_body D) (drv_destroy_instance D)
                _ _ _ destroy_body_threads EF) as TF.
  simpl in TF.
  apply (for_each_completes (destroy_body D) destroy_calls destroy_body_completes) in EF.
  rewrite bind_invoke.
  destruct (drv_account_driver D w2) as [w3 [[]|e]] eqn:EA; [|done].
  unfold bind at 1. rewrite bind_invoke.
  destruct (drv_list_usergroup_names D w3) as [w4 [names|e]] eqn:EN; [|done].
  destruct (for_each names (network_body D)
              (w4, (tr2 ++ [OSAccountDriver_new]) ++ [list_usergroup_names]))
    as [s2 [[]|e]] eqn:EG; [|done].
  unfold ret. intros [= <- _].
  pose proof (for_each_thread_completes (network_body D)
                (fun u => drv_delete_tenant_network D u u) _ _ _
                network_body_threads EG) as TG.
  apply (for_each_completes (network_body D) (fun u => [delete_tenant_network u u])
           network_body_completes) in EG.
  rewrite map_as_flat_map in EG. cbn in EF, EG. simpl in TG.
  assert (ET : snd s2 = ex_list_all_instances :: flat_map destroy_calls insts
             ++ [OSAccountDriver_new; list_usergroup_names]
             ++ map (fun u => delete_tenant_network u u) names).
  { rewrite EG, EF. cbn. by rewrite <- !app_assoc. }
  exists w1, insts, w2, w3, w4, names. split; [done|]. split; [done|].
  split; [done|]. split; [done|]. split; [done|].
  split; [done|]. rewrite ET. split.
  - intros i Hi. right. apply elem_of_app. left.
    apply list_elem_of_In, in_flat_map. exists i.
    split; [by apply list_elem_of_In|]. by left.
  - intros u Hu. right. apply elem_of_app. right. do 2 right.
    by apply (list_elem_of_fmap_2 (fun u => delete_tenant_network u u)).
Qed.

Lemma bind_ext {A B} (m : M W A) (k k' : A -> M W B) s :
  (forall a s1, k a s1 = k' a s1) -> bind m k s = bind m k' s.
Proof. intros Hk. unfold bind. by destruct (m s) as [s1 [a|e]]. Qed.

Lemma bind_assoc {A B C} (m : M W A) (k : A -> M W B) (h : B -> M W C) s :
  bind (bind m k) h s = bind m (fun a => bind (k a) h) s.
Proof. unfold bind. by destruct (m s) as [s1 [a|e]]. Qed.

(** C8. [destroy_all_instances()] and [stop_all_instances(destroy=True)]
    are the same program: from every state they make the same calls,
    leave the collaborators in the same state and give the same result
    (or raise the same exception). *)
Theorem destroy_all_instances_is_stop_with_destroy (s : W * trace) :
  destroy_all_instances D s = stop_all_instances D true s.
Proof.
  rewrite stop_all_instances_true_unfold.
  unfold destroy_all_instances, mbind, M_bind.
  apply bind_ext. intros insts s1.
  apply bind_ext. intros _ s2.
  apply bind_ext. intros _ s3.
  symmetry. apply bind_assoc.
Qed.

(** C9. On a machine whose image metadata has no "deployed" key,
    [remove_metadata_deployed] reads the metadata and makes no other
    call: nothing is deleted. *)
Theorem remove_metadata_deployed_absent (machine : string) (w w1 : W)
    (metadata : gmap string string) :
  drv_get_image_metadata D machine w = (w1, Ok metadata) ->
  metadata !! "deployed" = None ->
  run (remove_metadata_deployed D machine) w =
    ((w1, [ex_get_image_metadata machine]), Ok tt).
Proof.
  intros Hget Hkey. unfold run, remove_metadata_deployed, mbind, M_bind.
  rewrite bind_invoke, Hget. unfold dict_get_truthy. by rewrite Hkey.
Qed.

Lemma bind_ret_true {A} (m : M W A) s s' b :
  bind m (fun _ => ret true) s = (s', Ok b) -> b = true.
Proof.
  unfold bind, ret. destruct (m s) as [s1 [a|e]]; [|done]. by intros [= _ <-].
Qed.

Lemma bind_inner {A B} (m : M W A) (k : A -> M W B) (P : Prop) s s' b :
  (forall a s1, k a s1 = (s', Ok b) -> P) -> bind m k s = (s', Ok b) -> P.
Proof.
  intros Hk. unfold bind. destruct (m s) as [s1 [a|e]]; [|done]. apply Hk.
Qed.

Lemma stop_all_instances_flag (destroy : bool) s s' b :
  stop_all_instances D destroy s = (s', Ok b) -> b = true.
Proof.
  unfold stop_all_instances, mbind, M_bind.
  apply bind_inner. intros insts s1.
  apply bind_inner. intros _ s2.
  apply bind_inner. intros _ s3.
  apply bind_ret_true.
Qed.

Lemma destroy_all_instances_flag s s' b :
  destroy_all_instances D s = (s', Ok b) -> b = true.
Proof.
  unfold destroy_all_instances, mbind, M_bind.
  do 4 (apply bind_inner; intros ? ?). apply bind_ret_true.
Qed.

Lemma for_each_total {A} (body : A -> M W unit) (l : list A) :
  (forall x s, exists s', body x s = (s', Ok tt)) ->
  forall s, exists s', for_each l body s = (s', Ok tt).
Proof.
  intros Hb. induction l as [|x l IH]; intros s; simpl.
  - by exists s.
  - unfold bind. destruct (Hb x s) as (s1 & ->). apply IH.
Qed.

(** With collaborators that do not raise, the bulk operations run to
    their end. *)
Lemma stop_all_instances_completes (destroy : bool) (w : W) :
  never_raises D ->
  exists s', run (stop_all_instances D destroy) w = (s', Ok true).
Proof.
  intros (Hlist & Hdestroy & Hstop & Hacct & Hnames & Hnet).
  assert (Hbody : forall (i : instance) s, exists s',
    (if destroy then destroy_body D i else stop_body D i) s = (s', Ok tt)).
  { intros i [w0 tr]. destruct destroy.
    - unfold destroy_body. rewrite bind_invoke.
      destruct (Hdestroy i w0) as (w1 & ->). by eexists.
    - unfold stop_body. destruct (String.eqb _ _); [|by eexists].
      rewrite bind_invoke. destruct (Hstop i w0) as (w1 & ->). by eexists. }
  unfold run.
  assert (stop_all_instances D destroy (w, []) =
    bind (all_instances D) (fun insts =>
    bind (for_each insts (fun i => if destroy then destroy_body D i else stop_body D i))
      (fun _ =>
    bind (invoke OSAccountDriver_new (drv_account_driver D)) (fun _ =>
    bind (if destroy then
            bind (invoke list_usergroup_names (drv_list_usergroup_names D))
                 (fun names => for_each names (network_body D))
          else ret tt) (fun _ => ret true)))) (w, [])) as ->
    by (by destruct destroy).
  unfold all_instances. rewrite bind_invoke.
  destruct (Hlist w) as (w1 & insts & ->).
  unfold bind at 1.
  destruct (for_each_total
              (fun i => if destroy then destroy_body D i else stop_body D i)
              insts Hbody (w1, [] ++ [ex_list_all_instances]))
    as ([w2 tr2] & ->).
  rewrite bind_invoke. destruct (Hacct w2) as (w3 & ->).
  unfold bind at 1. destruct destroy; [|by eexists].
  rewrite bind_invoke. destruct (Hnames w3) as (w4 & names & ->).
  destruct (for_each_total (network_body D) names) with (s := (w4, (tr2 ++ [OSAccountDriver_new]) ++ [list_usergroup_names]))
    as (s5 & ->); [|by eexists].
  intros u [w0 tr]. unfold network_body, invoke. simpl.
  destruct (Hnet u u w0) as (w5 & ->). by eexists.
Qed.

(** C10. A bulk operation that runs to its end returns [True]: neither
    [stop_all_instances] nor [destroy_all_instances] ever returns
    [False]; a failure is an exception. *)
Theorem bulk_operations_return_True (destroy : bool) (w : W) s' b :
  run (stop_all_instances D destroy) w = (s', Ok b) \/
  run (destroy_all_instances D) w = (s', Ok b) ->
  b = true.
Proof.
  unfold run. intros [H|H].
  - by apply stop_all_instances_flag in H.
  - by apply destroy_all_instances_flag in H.
Qed.

End FleetFacts.

(** The programs on a fleet of three instances, two of them active, and
    two user groups. *)

Lemma stop_all_instances_with_destroy_witness :
  Fleet.run (Fleet.stop_all_instances Fixtures.counted_fleet true) 0 =
    ((8, Fleet.ex_list_all_instances
          :: flat_map Fleet.destroy_calls [Sample.vm1; Sample.vm2; Sample.vm3]
          ++ [Fleet.OSAccountDriver_new; Fleet.list_usergroup_names]
          ++ map (fun u => Fleet.delete_tenant_network u u) ["alice"; "bob"]), Ok true) /\
  exists w1 insts w2 w3 w4 names,
    Fleet.drv_list_all_instances Fixtures.counted_fleet 0 = (w1, Ok insts) /\
    Traces.thread (Fleet.drv_destroy_instance Fixtures.counted_fleet) insts w1
      = (w2, Ok tt) /\
    Fleet.drv_account_driver Fixtures.counted_fleet w2 = (w3, Ok tt) /\
    Fleet.drv_list_usergroup_names Fixtures.counted_fleet w3 = (w4, Ok names) /\
    Traces.thread (fun u => Fleet.drv_delete_tenant_network Fixtures.counted_fleet u u)
      names w4 = (8, Ok tt) /\
    Fleet.ex_list_all_instances
      :: flat_map Fleet.destroy_calls [Sample.vm1; Sample.vm2; Sample.vm3]
      ++ [Fleet.OSAccountDriver_new; Fleet.list_usergroup_names]
      ++ map (fun u => Fleet.delete_tenant_network u u) ["alice"; "bob"] =
      Fleet.ex_list_all_instances :: flat_map Fleet.destroy_calls insts
        ++ [Fleet.OSAccountDriver_new; Fleet.list_usergroup_names]
        ++ map (fun u => Fleet.delete_tenant_network u u) names /\
    (forall i, i ∈ insts ->
       Fleet.destroy_instance i ∈
         Fleet.ex_list_all_instances
          :: flat_map Fleet.destroy_calls [Sample.vm1; Sample.vm2; Sample.vm3]
          ++ [Fleet.OSAccountDriver_new; Fleet.list_usergroup_names]
          ++ map (fun u => Fleet.delete_tenant_network u u) ["alice"; "bob"]) /\
    (forall u, u ∈ names ->
       Fleet.delete_tenant_network u u ∈
         Fleet.ex_list_all_instances
          :: flat_map Fleet.destroy_calls [Sample.vm1; Sample.vm2; Sample.vm3]
          ++ [Fleet.OSAccountDriver_new; Fleet.list_usergroup_names]
          ++ map (fun u => Fleet.delete_tenant_network u u) ["alice"; "bob"]).
Proof.
  split; [reflexivity|].
  exact (stop_all_instances_with_destroy Fixtures.counted_fleet 0
           (8, Fleet.ex_list_all_instances
                 :: flat_map Fleet.destroy_calls [Sample.vm1; Sample.vm2; Sample.vm3]
                 ++ [Fleet.OSAccountDriver_new; Fleet.list_usergroup_names]
                 ++ map (fun u => Fleet.delete_tenant_network u u) ["alice"; "bob"])
           true eq_refl).
Defined.

Lemma remove_metadata_deployed_absent_witness :
  Fleet.drv_get_image_metadata Sample.fleet "image-1" tt = (tt, Ok ∅) /\
  (∅ : gmap string string) !! "deployed" = None /\
  Fleet.run (Fleet.remove_metadata_deployed Sample.fleet "image-1") tt =
    ((tt, [Fleet.ex_get_image_metadata "image-1"]), Ok tt).
Proof.
  split; [reflexivity|]. split; [reflexivity|].
  apply (remove_metadata_deployed_absent Sample.fleet "image-1" tt tt ∅); reflexivity.
Defined.

Lemma bulk_operations_return_True_witness :
  Fleet.run (Fleet.stop_all_instances Sample.fleet false) tt =
     ((tt, [Fleet.ex_list_all_instances;
            Fleet.stop_instance Sample.vm1; Fleet.logger_debug (Fleet.Stopped Sample.vm1);
            Fleet.stop_instance Sample.vm3; Fleet.logger_debug (Fleet.Stopped Sample.vm3);
            Fleet.OSAccountDriver_new]), Ok true) /\
  true = true.
Proof.
  assert (Fleet.run (Fleet.stop_all_instances Sample.fleet false) tt =
     ((tt, [Fleet.ex_list_all_instances;
            Fleet.stop_instance Sample.vm1; Fleet.logger_debug (Fleet.Stopped Sample.vm1);
            Fleet.stop_instance Sample.vm3; Fleet.logger_debug (Fleet.Stopped Sample.vm3);
            Fleet.OSAccountDriver_new]), Ok true)) as H by reflexivity.
  split; [exact H|].
  exact (bulk_operations_return_True Sample.fleet false tt _ true (or_introl H)).
Defined.

(** ** The registry *)

Section RegistryFacts.
Import Registry.
Context {Provider Identity : Type}.
Context `{Countable Provider} `{Countable Identity}.
Variables AWSProvider EucaProvider OSProvider : Provider.
Variable metaCls : Provider -> meta_class.
Variable subclass_admin_driver :
  meta_class -> @Driver Provider Identity -> result (@Driver Provider Identity).

Abbreviation get_meta := (get_meta AWSProvider EucaProvider OSProvider metaCls subclass_admin_driver).
Abbreviation create_meta := (create_meta metaCls subclass_admin_driver).
Abbreviation cls_provider := (cls_provider AWSProvider EucaProvider OSProvider).

Lemma metas_ref_reset cls (s : state (Provider:=Provider) (Identity:=Identity)) :
  metas_ref cls (reset cls s) = next_oid s.
Proof.
  destruct cls; simpl; try done; by rewrite decide_True.
Qed.

Lemma metas_of_reset cls (s : state (Provider:=Provider) (Identity:=Identity)) :
  metas_of cls (reset cls s) = ∅.
Proof.
  unfold metas_of. rewrite metas_ref_reset. simpl. by rewrite lookup_insert_eq.
Qed.

Lemma metas_of_initial cls :
  metas_of (Provider:=Provider) (Identity:=Identity) cls initial = ∅.
Proof. unfold metas_of. destruct cls; simpl; by rewrite lookup_singleton_eq. Qed.

(** What [create_meta] leaves behind: the new object, under the key
    made of the driver's own provider. *)
Lemma create_meta_stores cls d a s s1 m :
  create_meta cls d a s = (s1, Ok m) ->
  metas_of cls s1 !! (Some (provider d), identity d) = Some m /\
  meta_oid m = next_oid s /\ next_oid s1 = S (next_oid s) /\
  metas_ref cls s1 = metas_ref cls s.
Proof.
  unfold Registry.create_meta, new_meta.
  destruct a as [a|]; [|destruct (create_admin_driver _ _ _) as [a|e]];
    intros [= <- <-] || done.
  all: unfold metas_of; destruct cls; simpl.
  all: by rewrite lookup_insert_eq; simpl; rewrite lookup_insert_eq.
Qed.

(** The cache works when the class attribute [cls.provider] and the
    driver's [provider] are the same key: the second call returns the
    object the first one built, and builds nothing. *)
Lemma get_meta_again cls d s s1 m1 :
  cls_provider cls = Some (provider d) ->
  get_meta cls d s = (s1, Ok m1) ->
  get_meta cls d s1 = (s1, Ok m1).
Proof.
  intros Hk. unfold Registry.get_meta. rewrite Hk.
  destruct (metas_of cls s !! _) as [m|] eqn:E.
  - intros [= <- <-]. by rewrite E.
  - intros Hc. apply create_meta_stores in Hc as (-> & _). done.
Qed.

(** After [cls.reset()] the next [cls.get_meta] builds a new object. *)
Lemma get_meta_after_reset cls d s :
  get_meta cls d (reset cls s) = create_meta cls d None (reset cls s).
Proof. unfold Registry.get_meta. by rewrite metas_of_reset. Qed.

(** Every key of the dictionary [Meta.metas] written from [initial] on
    by [get_meta] has a provider in it, which [Meta.provider] is not. *)
Lemma Meta_get_meta_initial d s1 m1 :
  get_meta Meta d initial = (s1, Ok m1) ->
  metas_of Meta s1 = {[ (Some (provider d), identity d) := m1 ]} /\
  meta_oid m1 = 1 /\ next_oid s1 = 2.
Proof.
  unfold Registry.get_meta. rewrite metas_of_initial, lookup_empty.
  intros Hc. pose proof (create_meta_stores _ _ _ _ _ _ Hc) as (_ & Ho & Hn & _).
  split; [|done]. revert Hc. unfold Registry.create_meta, new_meta.
  destruct (create_admin_driver _ _ _) as [a|e]; [|done].
  intros [= <- <-]. unfold metas_of. simpl.
  rewrite lookup_insert_eq, lookup_singleton_eq. simpl. by rewrite insert_empty.
Qed.

Lemma provider_keyed_initial :
  provider_keyed (Provider:=Provider) (Identity:=Identity) initial.
Proof.
  intros r dict k m Hr Hk. unfold initial in Hr. simpl in Hr.
  apply lookup_singleton_Some in Hr as [_ <-]. by rewrite lookup_empty in Hk.
Qed.

Lemma provider_keyed_create_meta cls d a s s1 res :
  provider_keyed s -> create_meta cls d a s = (s1, res) -> provider_keyed s1.
Proof.
  intros Hs. unfold Registry.create_meta.
  destruct (new_meta _ _ _ _ _) as [s0 [m|e]] eqn:En.
  - assert (heap s0 = heap s) as Hh.
    { revert En. unfold new_meta.
      destruct a; [|destruct (create_admin_driver _ _ _)]; by intros [= <- _]. }
    intros [= <- _] r dict k m' Hr Hk. simpl in Hr.
    apply lookup_insert_Some in Hr as [[_ <-]|[_ Hr]].
    + apply lookup_insert_Some in Hk as [[<- _]|[_ Hk]]; [by eexists|].
      unfold metas_of in Hk. destruct (heap s0 !! _) as [dict0|] eqn:E0.
      * rewrite Hh in E0. by eapply Hs.
      * simpl in Hk. by rewrite lookup_empty in Hk.
    + rewrite Hh in Hr. by eapply Hs.
  - assert (heap s0 = heap s) as Hh.
    { revert En. unfold new_meta.
      destruct a; [|destruct (create_admin_driver _ _ _)]; by intros [= <- _]. }
    intros [= <- _] r dict k m' Hr Hk. rewrite Hh in Hr. by eapply Hs.
Qed.

Lemma provider_keyed_reset cls (s : state (Provider:=Provider) (Identity:=Identity)) :
  provider_keyed s -> provider_keyed (reset cls s).
Proof.
  intros Hs r dict k m Hr Hk. simpl in Hr.
  apply lookup_insert_Some in Hr as [[_ <-]|[_ Hr]].
  - by rewrite lookup_empty in Hk.
  - by eapply Hs.
Qed.

(** On [Meta] itself the lookup never succeeds, whatever was cached:
    every call of [Meta.get_meta] builds a new object. *)
Lemma Meta_get_meta_never_hits d s :
  provider_keyed s -> get_meta Meta d s = create_meta Meta d None s.
Proof.
  intros Hs. unfold Registry.get_meta.
  destruct (metas_of Meta s !! _) as [m|] eqn:E; [|done].
  unfold metas_of in E. destruct (heap s !! _) as [dict|] eqn:Ed.
  - by destruct (Hs _ _ _ _ Ed E).
  - simpl in E. by rewrite lookup_empty in E.
Qed.

(** C1 (what the code does instead). Called on [Meta] itself, whose
    [provider] attribute is [None], [get_meta] looks up
    [(None, identity)] while [create_meta] stores under
    [(driver.provider, identity)]: after a first call has built and
    cached an object, a second call with the same driver does not find
    it and builds a second object for the same driver. *)
Theorem Meta_get_meta_twice_builds_twice d s1 m1 :
  get_meta Meta d initial = (s1, Ok m1) ->
  metas_of Meta s1 !! (Some (provider d), identity d) = Some m1 /\
  exists s2 m2,
    get_meta Meta d s1 = (s2, Ok m2) /\
    meta_oid m2 <> meta_oid m1 /\
    meta_driver m2 = meta_driver m1.
Proof.
  intros H1. pose proof (Meta_get_meta_initial _ _ _ H1) as (Hd & Ho & Hn).
  split; [by rewrite Hd, lookup_singleton_eq|].
  revert H1. unfold Registry.get_meta. simpl. rewrite Hd.
  rewrite lookup_singleton_ne by done.
  rewrite metas_of_initial, lookup_empty.
  unfold Registry.create_meta, new_meta.
  destruct (create_admin_driver _ _ _) as [a|e]; [|done].
  intros [= <- <-]. eexists _, _. split; [reflexivity|]. simpl. done.
Qed.

End RegistryFacts.

Lemma Meta_get_meta_twice_builds_twice_witness :
  exists s1 m1,
    Sample.get_meta_by_name Registry.Meta Sample.os_driver Registry.initial = (s1, Ok m1) /\
    Registry.metas_of Registry.Meta s1 !! (Some "OSProvider()", "alice") = Some m1 /\
    exists s2 m2,
      Sample.get_meta_by_name Registry.Meta Sample.os_driver s1 = (s2, Ok m2) /\
      Registry.meta_oid m2 <> Registry.meta_oid m1 /\
      Registry.meta_driver m2 = Registry.meta_driver m1.
Proof.
  destruct (Sample.get_meta_by_name Registry.Meta Sample.os_driver Registry.initial)
    as [s1 [m1|e]] eqn:E; [|discriminate E].
  exists s1, m1. split; [reflexivity|].
  exact (Meta_get_meta_twice_builds_twice _ _ _ _ _ Sample.os_driver s1 m1 E).
Defined.

(** ** Python numbers

    Facts about binary64 conversion, division and rounding, proved on
    the definitions of [SpecFloat]. *)

Section NumberFacts.
Import PyNum.
Local Open Scope Z_scope.

Lemma digits2_pos_bounds p :
  2 ^ (Zpos (digits2_pos p) - 1) <= Zpos p < 2 ^ Zpos (digits2_pos p).
Proof.
  induction p as [p IH|p IH|]; simpl digits2_pos.
  - rewrite Pos2Z.inj_succ. replace (Z.succ (Z.pos (digits2_pos p)) - 1) with (Z.succ (Z.pos (digits2_pos p) - 1)) by lia.
    rewrite !Z.pow_succ_r by lia. lia.
  - rewrite Pos2Z.inj_succ. replace (Z.succ (Z.pos (digits2_pos p)) - 1) with (Z.succ (Z.pos (digits2_pos p) - 1)) by lia.
    rewrite !Z.pow_succ_r by lia. lia.
  - simpl. lia.
Qed.

Lemma Zdigits2_unique m k :
  2 ^ (k - 1) <= m < 2 ^ k -> 0 < k -> Zdigits2 m = k.
Proof.
  intros Hm Hk. assert (0 < m) by (pose proof (Z.pow_pos_nonneg 2 (k - 1)); lia).
  destruct m as [|p|p]; try lia. simpl.
  pose proof (digits2_pos_bounds p) as Hd.
  destruct (Z.lt_trichotomy (Zpos (digits2_pos p)) k) as [Hlt|[Heq|Hgt]]; [|done|].
  - assert (2 ^ Zpos (digits2_pos p) <= 2 ^ (k - 1)) by (apply Z.pow_le_mono_r; lia). lia.
  - assert (2 ^ k <= 2 ^ (Zpos (digits2_pos p) - 1)) by (apply Z.pow_le_mono_r; lia). lia.
Qed.

Lemma shr_1_spec m r s :
  0 <= m ->
  shr_1 {| shr_m := m; shr_r := r; shr_s := s |} =
  {| shr_m := m / 2; shr_r := Z.odd m; shr_s := r || s |}.
Proof.
  intros Hm. destruct m as [|[p|p|]|p]; try lia; simpl; f_equal.
  - rewrite Pos2Z.inj_xI. apply (Z.div_unique _ _ _ 1); lia.
  - rewrite Pos2Z.inj_xO. apply (Z.div_unique _ _ _ 0); lia.
Qed.

Lemma fexp_normal e : -1021 <= e -> fexp prec emax e = e - 53.
Proof. unfold fexp, emin, prec, emax. lia. Qed.

Lemma shr_fexp_53 m e l :
  2 ^ 52 <= m < 2 ^ 53 -> -1074 <= e ->
  shr_fexp prec emax m e l = (shr_record_of_loc m l, e).
Proof.
  intros Hm He. unfold shr_fexp. rewrite (Zdigits2_unique m 53) by lia.
  rewrite fexp_normal by lia. replace (53 + e - 53 - e) with 0 by lia. reflexivity.
Qed.

Lemma shr_fexp_54 m e l :
  2 ^ 53 <= m < 2 ^ 54 -> -1075 <= e ->
  shr_fexp prec emax m e l = (shr_1 (shr_record_of_loc m l), e + 1).
Proof.
  intros Hm He. unfold shr_fexp. rewrite (Zdigits2_unique m 54) by lia.
  rewrite fexp_normal by lia. replace (54 + e - 53 - e) with 1 by lia. reflexivity.
Qed.

Lemma loc_of_shr_record_of_loc m l :
  loc_of_shr_record (shr_record_of_loc m l) = l.
Proof. by destruct l as [|[]]. Qed.

Lemma shr_m_record_of_loc m l : shr_m (shr_record_of_loc m l) = m.
Proof. by destruct l as [|[]]. Qed.

Lemma round_nearest_even_cases m l :
  round_nearest_even m l = m \/
  (round_nearest_even m l = m + 1 /\ (l = loc_Inexact Eq \/ l = loc_Inexact Gt)).
Proof.
  destruct l as [|[]]; simpl; auto. destruct (Z.even m); auto.
Qed.

Lemma binary_round_aux_53 s q e l :
  2 ^ 52 <= q < 2 ^ 53 -> -1074 <= e <= 970 ->
  binary_round_aux prec emax s q e l =
    let q' := round_nearest_even q l in
    if q' <? 2 ^ 53 then S754_finite s (Z.to_pos q') e
    else S754_finite s (Z.to_pos (2 ^ 52)) (e + 1).
Proof.
  intros Hq He. unfold binary_round_aux.
  rewrite shr_fexp_53 by lia.
  rewrite loc_of_shr_record_of_loc, shr_m_record_of_loc.
  cbv zeta. set (q' := round_nearest_even q l).
  assert (q' = q \/ q' = q + 1) as Hq'
    by (destruct (round_nearest_even_cases q l) as [?|[? _]]; auto).
  destruct (Z.ltb_spec q' (2 ^ 53)) as [Hlt|Hge].
  - rewrite shr_fexp_53 by lia. simpl shr_m.
    destruct q' as [|p|p] eqn:E; try lia.
    replace (e <=? emax - prec) with true by (unfold emax, prec; lia).
    reflexivity.
  - assert (q' = 2 ^ 53) as -> by lia.
    rewrite shr_fexp_54 by lia. simpl shr_record_of_loc.
    rewrite shr_1_spec by lia. simpl shr_m.
    replace (e + 1 <=? emax - prec) with true by (unfold emax, prec; lia).
    reflexivity.
Qed.

Lemma binary_round_aux_54 s q e l :
  2 ^ 53 <= q < 2 ^ 54 -> -1075 <= e <= 969 ->
  binary_round_aux prec emax s q e l =
    let l' := loc_of_shr_record (shr_1 (shr_record_of_loc q l)) in
    let q' := round_nearest_even (q / 2) l' in
    if q' <? 2 ^ 53 then S754_finite s (Z.to_pos q') (e + 1)
    else S754_finite s (Z.to_pos (2 ^ 52)) (e + 2).
Proof.
  intros Hq He. unfold binary_round_aux.
  rewrite shr_fexp_54 by lia.
  assert (shr_m (shr_1 (shr_record_of_loc q l)) = q / 2) as ->.
  { destruct l as [|[]]; simpl shr_record_of_loc; by rewrite shr_1_spec by lia. }
  cbv zeta. set (l' := loc_of_shr_record _). set (q' := round_nearest_even (q / 2) l').
  assert (2 ^ 52 <= q / 2 < 2 ^ 53) as Hh.
  { split; [apply Z.div_le_lower_bound|apply Z.div_lt_upper_bound]; lia. }
  assert (q' = q / 2 \/ q' = q / 2 + 1) as Hq'
    by (destruct (round_nearest_even_cases (q / 2) l') as [?|[? _]]; auto).
  destruct (Z.ltb_spec q' (2 ^ 53)) as [Hlt|Hge].
  - rewrite shr_fexp_53 by lia. simpl shr_m.
    destruct q' as [|p|p] eqn:E; try lia.
    replace (e + 1 <=? emax - prec) with true by (unfold emax, prec; lia).
    reflexivity.
  - assert (q' = 2 ^ 53) as -> by lia.
    rewrite shr_fexp_54 by lia. simpl shr_record_of_loc.
    rewrite shr_1_spec by lia. simpl shr_m.
    replace (e + 1 + 1 <=? emax - prec) with true by (unfold emax, prec; lia).
    replace (e + 1 + 1) with (e + 2) by lia.
    reflexivity.
Qed.

(** In the 54-bit case the mantissa is only rounded up when the bit
    shifted out is set. *)
Lemma round_up_54_odd q l :
  0 <= q ->
  round_nearest_even (q / 2) (loc_of_shr_record (shr_1 (shr_record_of_loc q l)))
    <> q / 2 ->
  Z.odd q = true.
Proof.
  intros Hq. destruct l as [|[]]; simpl shr_record_of_loc; rewrite shr_1_spec by done;
    destruct (Z.odd q); simpl; congruence.
Qed.

Lemma iter_xO_value p k : Zpos (Pos.iter xO p k) = Zpos p * 2 ^ Zpos k.
Proof.
  revert p. induction k as [|k IH] using Pos.peano_ind; intros p.
  - simpl. lia.
  - rewrite Pos.iter_succ, Pos2Z.inj_xO, IH, Pos2Z.inj_succ, Z.pow_succ_r by lia. lia.
Qed.

Lemma binary_round_aux_53_exact s p e :
  2 ^ 52 <= Zpos p < 2 ^ 53 -> -1074 <= e <= 970 ->
  binary_round_aux prec emax s (Zpos p) e loc_Exact = S754_finite s p e.
Proof.
  intros Hp He. rewrite binary_round_aux_53 by lia.
  cbv zeta. simpl round_nearest_even.
  destruct (Z.ltb_spec (Zpos p) (2 ^ 53)); [done|lia].
Qed.

(** An integer below 2^53 in absolute value converts exactly: the
    mantissa is the integer shifted to 53 bits. *)
Lemma binary_round_small p :
  Zpos p < 2 ^ 53 ->
  exists m a,
    (forall s, binary_round prec emax s p 0 = S754_finite s m (- a)) /\
    Zpos m = Zpos p * 2 ^ a /\ 0 <= a <= 52 /\ 2 ^ 52 <= Zpos m < 2 ^ 53.
Proof.
  intros Hp. pose proof (digits2_pos_bounds p) as Hd.
  set (d := Zpos (digits2_pos p)) in *.
  assert (1 <= d <= 53) as Hd53.
  { split; [unfold d; lia|].
    destruct (Z.le_gt_cases d 53) as [|Hgt]; [done|].
    assert (2 ^ 53 <= 2 ^ (d - 1)) by (apply Z.pow_le_mono_r; lia). lia. }
  unfold binary_round, shl_align. fold d.
  rewrite Z.add_0_r, fexp_normal by lia. rewrite Z.sub_0_r.
  destruct (d - 53) as [|k|k] eqn:Ek; try lia.
  - exists p, 0. assert (d = 53) as Hd' by lia. rewrite Hd' in Hd.
    split; [intros s; by rewrite binary_round_aux_53_exact by lia|]. lia.
  - exists (Pos.iter xO p k), (Zpos k).
    assert (Zpos k = 53 - d) as Hk by lia.
    pose proof (iter_xO_value p k) as Hv.
    assert (2 ^ 52 <= Zpos (Pos.iter xO p k) < 2 ^ 53) as Hm.
    { rewrite Hv, Hk.
      replace (2 ^ 52) with (2 ^ (d - 1) * 2 ^ (53 - d))
        by (rewrite <- Z.pow_add_r by lia; f_equal; lia).
      replace (2 ^ 53) with (2 ^ d * 2 ^ (53 - d))
        by (rewrite <- Z.pow_add_r by lia; f_equal; lia).
      assert (0 < 2 ^ (53 - d)) by (apply Z.pow_pos_nonneg; lia).
      nia. }
    split; [intros s; by rewrite binary_round_aux_53_exact by lia|].
    split; [done|]. lia.
Qed.

Lemma int_value_shifted s m a n :
  0 <= a -> Zpos m = n * 2 ^ a ->
  int_value (PyFloat (S754_finite s m (- a))) = Some (cond_Zopp s n).
Proof.
  intros Ha Hm. unfold int_value. simpl exact_of.
  assert (0 < 2 ^ a) as Hpow by (apply Z.pow_pos_nonneg; lia).
  assert (cond_Zopp s (Z.pos m) = cond_Zopp s n * 2 ^ a) as ->
    by (destruct s; simpl; lia).
  destruct (Z.eq_dec a 0) as [->|Hne].
  - simpl. f_equal. lia.
  - replace (0 <=? - a) with false by lia.
    rewrite Z.opp_involutive, Z.mod_mul, Z.div_mul by lia. done.
Qed.

Lemma int_value_normalize n sz :
  - 2 ^ 53 < n < 2 ^ 53 ->
  exists f, binary_normalize prec emax n 0 sz = f /\
            (forall s, f <> S754_infinity s) /\
            int_value (PyFloat f) = Some n.
Proof.
  intros Hn. eexists. split; [reflexivity|].
  destruct n as [|p|p]; simpl binary_normalize.
  - split; [done|]. reflexivity.
  - destruct (binary_round_small p) as (m & a & -> & Hm & Ha & _); [lia|].
    split; [done|]. by rewrite (int_value_shifted _ _ _ (Zpos p)) by lia.
  - destruct (binary_round_small p) as (m & a & -> & Hm & Ha & _); [lia|].
    split; [done|]. by rewrite (int_value_shifted _ _ _ (Zpos p)) by lia.
Qed.

Lemma float_of_int_exact n :
  - 2 ^ 53 < n < 2 ^ 53 ->
  exists f, float_of_int n = Ok f /\ int_value (PyFloat f) = Some n.
Proof.
  intros Hn. destruct (int_value_normalize n false Hn) as (f & Hf & Hinf & Hv).
  exists f. split; [|done]. unfold float_of_int. rewrite Hf.
  destruct f; try done. by destruct (Hinf s).
Qed.

(** The arithmetic behind the floor of a rounded quotient: scaling by a
    power [P] larger than the divisor keeps the quotient clear of the
    next integer. *)
Lemma scaled_quotient t f P :
  0 <= t -> 0 < f < P ->
  (t * P / f) / P = t / f /\ (t * P / f) mod P <> P - 1.
Proof.
  intros Ht Hf. set (q := t * P / f).
  assert (Hq1 : q / P = t / f).
  { unfold q. rewrite Z.div_div by lia. rewrite Z.div_mul_cancel_r by lia. done. }
  split; [done|]. intros Hmod.
  pose proof (Z.div_mod q P ltac:(lia)) as Hdm. rewrite Hq1, Hmod in Hdm.
  pose proof (Z.mul_div_le (t * P) f ltac:(lia)) as Hle. fold q in Hle.
  pose proof (Z.div_mod t f ltac:(lia)) as Ht'.
  pose proof (Z.mod_pos_bound t f ltac:(lia)) as Hr.
  set (k := t / f) in *. set (r := t mod f) in *.
  assert (f * (P * k + P - 1) <= (f * k + r) * P)
    by (replace (P * k + P - 1) with q by lia; replace (f * k + r) with t by lia; lia).
  assert (r * P <= (f - 1) * P) by (apply Z.mul_le_mono_nonneg_r; lia).
  nia.
Qed.

Lemma succ_div_stable q P : 0 < P -> q mod P <> P - 1 -> (q + 1) / P = q / P.
Proof.
  intros HP Hm. pose proof (Z.mod_pos_bound q P HP).
  symmetry. apply (Z.div_unique _ _ _ (q mod P + 1)); [lia|].
  pose proof (Z.div_mod q P ltac:(lia)). lia.
Qed.

Lemma SFdiv_core_53 m1 e1 m2 e2 :
  2 ^ 52 <= m1 < 2 ^ 53 -> 2 ^ 52 <= m2 < 2 ^ 53 -> -1021 <= e1 - e2 ->
  SFdiv_core_binary prec emax m1 e1 m2 e2 =
    (m1 * 2 ^ 53 / m2, e1 - e2 - 53, new_location m2 (m1 * 2 ^ 53 mod m2)).
Proof.
  intros H1 H2 He. unfold SFdiv_core_binary.
  rewrite (Zdigits2_unique m1 53), (Zdigits2_unique m2 53) by lia.
  rewrite fexp_normal by lia.
  replace (Z.min (53 + e1 - (53 + e2) - 53) (e1 - e2)) with (e1 - e2 - 53) by lia.
  replace (e1 - e2 - (e1 - e2 - 53)) with 53 by lia.
  rewrite Z.shiftl_mul_pow2 by lia.
  unfold Z.div, Z.modulo. by destruct (Z.div_eucl (m1 * 2 ^ 53) m2).
Qed.

(** The floor of a double below 2^53 in absolute value, as an integer. *)
Lemma int_value_floor s M E :
  Zpos M < 2 ^ 53 -> E <= 0 ->
  int_value (PyFloat (SFfloor (S754_finite s M E))) =
    Some (cond_Zopp s (Zpos M) / 2 ^ (- E)).
Proof.
  intros HM HE. unfold SFfloor.
  destruct (Z.eq_dec E 0) as [->|Hne].
  - unfold int_value. cbn [exact_of exact_of_float Z.leb Z.compare].
    change (- 0) with 0. change (2 ^ 0) with 1.
    by rewrite Z.div_1_r, Z.mul_1_r.
  - replace (0 <=? E) with false by lia.
    assert (0 < 2 ^ (- E)) by (apply Z.pow_pos_nonneg; lia).
    assert (- 2 ^ 53 < cond_Zopp s (Zpos M) / 2 ^ (- E) < 2 ^ 53).
    { split.
      - assert (- 2 ^ 53 + 1 <= cond_Zopp s (Z.pos M) / 2 ^ (- E)); [|lia].
        apply Z.div_le_lower_bound; [lia|]. destruct s; simpl; nia.
      - apply Z.div_lt_upper_bound; [lia|]. destruct s; simpl; nia. }
    destruct (int_value_normalize (cond_Zopp s (Zpos M) / 2 ^ (- E)) s)
      as (f & -> & _ & Hv); [lia|done].
Qed.

(** The conversion of a non-zero integer below 2^53 in absolute value:
    the sign, and the absolute value shifted to 53 bits. *)
Lemma float_of_int_signed T :
  0 < T < 2 ^ 53 ->
  exists m a,
    (forall s, float_of_int (cond_Zopp s T) = Ok (S754_finite s m (- a))) /\
    Zpos m = T * 2 ^ a /\ 0 <= a <= 52 /\ 2 ^ 52 <= Zpos m < 2 ^ 53.
Proof.
  intros HT. destruct T as [|p|p]; try lia.
  destruct (binary_round_small p) as (m & a & Hr & Hm); [lia|].
  exists m, a. split; [|done].
  intros [|]; unfold float_of_int; simpl; by rewrite Hr.
Qed.

Lemma pow2_split c : 1 <= c -> 2 ^ c = 2 * 2 ^ (c - 1).
Proof. intros Hc. rewrite <- Z.pow_succ_r by lia. f_equal. lia. Qed.

(** A mantissa renormalised after rounding has the floor of the rounded
    value. *)
Lemma rounded_floor q' e0 M E :
  e0 <= E <= 0 -> M * 2 ^ (E - e0) = q' -> M / 2 ^ (- E) = q' / 2 ^ (- e0).
Proof.
  intros HE <-. replace (- e0) with (- E + (E - e0)) by lia.
  rewrite Z.pow_add_r by lia.
  assert (0 < 2 ^ (- E)) by (apply Z.pow_pos_nonneg; lia).
  assert (0 < 2 ^ (E - e0)) by (apply Z.pow_pos_nonneg; lia).
  by rewrite Z.div_mul_cancel_r by lia.
Qed.

Lemma new_location_zero m : new_location m 0 = loc_Exact.
Proof. unfold new_location. by destruct (Z.even m). Qed.

Lemma new_location_nonzero m r : r <> 0 -> exists c, new_location m r = loc_Inexact c.
Proof.
  intros Hr. unfold new_location.
  destruct (Z.even m); unfold new_location_even, new_location_odd;
    destruct (Z.eqb_spec r 0) as [|_]; try done; eexists; reflexivity.
Qed.

Lemma round_54_exact q :
  0 <= q -> Z.odd q = false ->
  round_nearest_even (q / 2)
    (loc_of_shr_record (shr_1 (shr_record_of_loc q loc_Exact))) = q / 2.
Proof.
  intros Hq Hodd. simpl shr_record_of_loc. rewrite shr_1_spec by done.
  by rewrite Hodd.
Qed.

Lemma round_54_inexact_odd q c :
  0 <= q -> Z.odd q = true ->
  round_nearest_even (q / 2)
    (loc_of_shr_record (shr_1 (shr_record_of_loc q (loc_Inexact c)))) = q / 2 + 1.
Proof.
  intros Hq Hodd. destruct c; simpl shr_record_of_loc; rewrite shr_1_spec by done;
    by rewrite Hodd.
Qed.

(** Exact quotients stay exact when scaled, inexact ones stay clear of
    the integer below. *)
Lemma scaled_quotient_exactness T f P :
  0 < T -> 0 < f < P ->
  (T mod f = 0 -> T * P / f = T / f * P /\ (T * P) mod f = 0) /\
  (T mod f <> 0 ->
     T / f * P + 1 <= T * P / f /\
     (T * P / f = T / f * P + 1 -> (T * P) mod f <> 0)).
Proof.
  intros HT Hf.
  pose proof (Z.div_mod T f ltac:(lia)) as HTf.
  pose proof (Z.mod_pos_bound T f ltac:(lia)) as Hr.
  set (k := T / f) in *. set (r := T mod f) in *.
  split.
  - intros Hr0. rewrite Hr0, Z.add_0_r in HTf.
    replace (T * P) with (k * P * f) by (rewrite HTf; lia).
    by rewrite Z.div_mul, Z.mod_mul by lia.
  - intros Hr0.
    assert (HTP : T * P = k * P * f + r * P) by (rewrite HTf at 1; lia).
    assert (Hq : T * P / f = k * P + r * P / f)
      by (rewrite HTP, Z.div_add_l by lia; done).
    assert (1 <= r * P / f) by (apply Z.div_le_lower_bound; nia).
    split; [lia|]. intros Hq1 Hmod.
    pose proof (Z.div_mod (T * P) f ltac:(lia)) as Hdm.
    rewrite Hmod, Hq1 in Hdm. nia.
Qed.

(** Floor division of the opposite. *)
Lemma opp_div a b k :
  0 < b -> a / b = k ->
  (a = k * b -> - a / b = - k) /\ (a <> k * b -> - a / b = - k - 1).
Proof.
  intros Hb Hk.
  pose proof (Z.div_mod a b ltac:(lia)) as Hdm.
  pose proof (Z.mod_pos_bound a b Hb) as Hr. rewrite Hk in Hdm.
  split; intros Ha.
  - symmetry. apply (Z.div_unique _ _ _ 0); lia.
  - symmetry. apply (Z.div_unique _ _ _ (b - a mod b)); lia.
Qed.

(** Two quotients with the same floor, exact together, have the same
    floor after a change of sign as well. *)
Lemma same_floor_signed q' P' T f k s :
  0 < P' -> 0 < f ->
  q' / P' = k -> T / f = k -> (q' = k * P' <-> T = k * f) ->
  cond_Zopp s q' / P' = cond_Zopp s T / f.
Proof.
  intros HP Hf Hq HT Hex. destruct s; simpl; [|congruence].
  destruct (opp_div q' P' k HP Hq) as (Hq0 & Hq1).
  destruct (opp_div T f k Hf HT) as (HT0 & HT1).
  destruct (Z.eq_dec T (k * f)) as [E|E].
  - rewrite HT0, Hq0; tauto.
  - rewrite HT1, Hq1; tauto.
Qed.

Lemma rounded_floor_signed s q' e0 M E :
  e0 <= E <= 0 -> M * 2 ^ (E - e0) = q' ->
  cond_Zopp s M / 2 ^ (- E) = cond_Zopp s q' / 2 ^ (- e0).
Proof.
  intros HE Hq. apply rounded_floor; [done|]. destruct s; simpl; lia.
Qed.

(** The centre of the development: for integers below 2^53 in absolute
    value, the floor of the correctly rounded quotient of their
    conversions is the integer quotient.  The rounded quotient has the
    mantissa [M] and the exponent [E] whatever the sign of the
    numerator. *)
Lemma float_quotient_floor T f :
  0 < T < 2 ^ 53 -> 0 < f < 2 ^ 53 ->
  exists m1 a m2 b M E,
    (forall s, float_of_int (cond_Zopp s T) = Ok (S754_finite s m1 (- a))) /\
    float_of_int f = Ok (S754_finite false m2 (- b)) /\
    (forall s, SFdiv prec emax (S754_finite s m1 (- a)) (S754_finite false m2 (- b))
               = S754_finite s M E) /\
    Zpos M < 2 ^ 53 /\ E <= 0 /\
    (forall s, cond_Zopp s (Zpos M) / 2 ^ (- E) = cond_Zopp s T / f).
Proof.
  intros Ht Hf.
  destruct (float_of_int_signed T Ht) as (m1 & a & Hft & Hm1 & Ha & Hr1).
  destruct (float_of_int_signed f Hf) as (m2 & b & Hff & Hm2 & Hb & Hr2).
  specialize (Hff false). simpl in Hff.
  exists m1, a, m2, b.
  set (c := 53 + a - b). set (P := 2 ^ c).
  assert (HA : 0 < 2 ^ a) by (apply Z.pow_pos_nonneg; lia).
  assert (HB : 0 < 2 ^ b) by (apply Z.pow_pos_nonneg; lia).
  assert (HP : 0 < P) by (apply Z.pow_pos_nonneg; unfold c; lia).
  assert (HPB : P * 2 ^ b = 2 ^ 53 * 2 ^ a).
  { unfold P, c. rewrite <- !Z.pow_add_r by lia. f_equal. lia. }
  assert (HfP : f < P).
  { assert (2 ^ 53 <= P * 2 ^ b) by nia. nia. }
  set (q := Z.pos m1 * 2 ^ 53 / Z.pos m2).
  set (r := (Z.pos m1 * 2 ^ 53) mod Z.pos m2).
  assert (Hnum : Z.pos m1 * 2 ^ 53 = T * P * 2 ^ b) by (rewrite Hm1; nia).
  assert (Hq : q = T * P / f).
  { unfold q. rewrite Hnum, Hm2. by rewrite Z.div_mul_cancel_r by lia. }
  assert (Hr : r = (T * P) mod f * 2 ^ b).
  { unfold r. rewrite Hnum, Hm2. by rewrite Z.mul_mod_distr_r by lia. }
  destruct (scaled_quotient T f P ltac:(lia) ltac:(lia)) as (Hdiv & Hmod).
  destruct (scaled_quotient_exactness T f P ltac:(lia) ltac:(lia)) as (Hex0 & Hex1).
  rewrite <- Hq in Hdiv, Hmod, Hex0, Hex1.
  set (k := T / f) in *.
  assert (Hqr : 2 ^ 52 <= q < 2 ^ 54).
  { unfold q. split.
    - apply Z.div_le_lower_bound; nia.
    - apply Z.div_lt_upper_bound; nia. }
  assert (Hc : 1 <= c <= 105) by (unfold c; lia).
  assert (Hsucc : (q + 1) / P = k) by (by rewrite succ_div_stable).
  assert (HTk : T = k * f <-> T mod f = 0).
  { pose proof (Z.div_mod T f ltac:(lia)). fold k in H. lia. }
  set (l := new_location (Z.pos m2) r).
  assert (Hl0 : T mod f = 0 -> l = loc_Exact).
  { intros H0. destruct (Hex0 H0) as (_ & Hz). unfold l.
    rewrite Hr, Hz. apply new_location_zero. }
  assert (Hl1 : T mod f <> 0 -> q = k * P + 1 -> exists c0, l = loc_Inexact c0).
  { intros H0 Hq1. destruct (Hex1 H0) as (_ & Hz). apply new_location_nonzero.
    rewrite Hr. specialize (Hz Hq1). lia. }
  assert (Hgoal : exists M E q' e0,
    (forall s, binary_round_aux prec emax s q (- c) l = S754_finite s M E) /\
    Zpos M < 2 ^ 53 /\ e0 <= E <= 0 /\ Zpos M * 2 ^ (E - e0) = q' /\
    q' / 2 ^ (- e0) = k /\ (q' = k * 2 ^ (- e0) <-> T = k * f)).
  { destruct (Z.lt_ge_cases q (2 ^ 53)) as [Hlt|Hge].
    - (* the quotient has 53 bits *)
      set (q' := round_nearest_even q l).
      assert (Hq' : (q' = q \/ q' = q + 1) /\ q' / P = k).
      { destruct (round_nearest_even_cases q l) as [E|[E _]]; fold q' in E;
          rewrite E; auto. }
      destruct Hq' as (Hq' & Hq'd).
      assert (Hexact : q' = k * P <-> T = k * f).
      { rewrite HTk. split.
        - intros E. destruct (Z.eq_dec (T mod f) 0) as [|Hn]; [done|].
          destruct (Hex1 Hn) as (? & _). lia.
        - intros H0. destruct (Hex0 H0) as (<- & _).
          unfold q'. by rewrite (Hl0 H0). }
      destruct (Z.lt_ge_cases q' (2 ^ 53)) as [Hlt'|Hge'].
      + exists (Z.to_pos q'), (- c), q', (- c).
        rewrite Z2Pos.id, Z.opp_involutive, Z.sub_diag, Z.mul_1_r by lia. fold P.
        split; [|split; [lia|]; split; [lia|]; done].
        intros s. rewrite binary_round_aux_53 by lia. cbv zeta. fold q'.
        by replace (q' <? 2 ^ 53) with true by lia.
      + exists (Z.to_pos (2 ^ 52)), (- c + 1), q', (- c).
        rewrite Z2Pos.id, Z.opp_involutive by lia. fold P.
        split; [|split; [lia|]; split; [lia|]; split; [|done]].
        * intros s. rewrite binary_round_aux_53 by lia. cbv zeta. fold q'.
          by replace (q' <? 2 ^ 53) with false by lia.
        * replace (- c + 1 - - c) with 1 by lia. lia.
    - (* the quotient has 54 bits and loses one *)
      set (l' := loc_of_shr_record (shr_1 (shr_record_of_loc q l))).
      set (q' := round_nearest_even (q / 2) l').
      set (P' := 2 ^ (c - 1)).
      assert (HP' : 0 < P') by (apply Z.pow_pos_nonneg; lia).
      assert (HPP : P = 2 * P') by (apply pow2_split; lia).
      assert (Hhalf : 2 ^ 52 <= q / 2 < 2 ^ 53).
      { split; [apply Z.div_le_lower_bound|apply Z.div_lt_upper_bound]; lia. }
      assert (Hqq : q = 2 * (q / 2) + q mod 2 /\ 0 <= q mod 2 < 2).
      { split; [apply Z.div_mod; lia|apply Z.mod_pos_bound; lia]. }
      assert (Hcases : q' = q / 2 \/ (q' = q / 2 + 1 /\ q mod 2 = 1)).
      { destruct (Z.eq_dec q' (q / 2)) as [E|E]; [by left|right].
        split; [by destruct (round_nearest_even_cases (q / 2) l') as [?|[? _]]|].
        apply (round_up_54_odd q l) in E; [|lia]. by rewrite Zmod_odd, E. }
      assert (Hfloor : q' / P' = k /\ (q' = q / 2 + 1 -> 2 <= c)).
      { destruct Hcases as [E|(E & Hodd)].
        - split; [|lia]. rewrite E, Z.div_div, <- HPP by lia. done.
        - assert (2 <= c) as Hc2.
          { destruct (Z.eq_dec c 1) as [Hc1|]; [|lia].
            exfalso. apply Hmod. unfold P. rewrite Hc1.
            change (2 ^ 1) with 2. by rewrite Hodd. }
          split; [|done].
          assert (q / 2 + 1 = (q + 1) / 2) as Hh
            by (apply (Z.div_unique _ _ _ 0); lia).
          rewrite E, Hh, Z.div_div, <- HPP by lia. done. }
      destruct Hfloor as (Hfloor & Hcarry).
      assert (Hexact : q' = k * P' <-> T = k * f).
      { rewrite HTk. split.
        - intros E. destruct (Z.eq_dec (T mod f) 0) as [|Hn]; [done|].
          destruct (Hex1 Hn) as (Hge1 & _).
          destruct (Z.eq_dec q (k * P + 1)) as [Hq1|Hq1].
          + destruct (Hl1 Hn Hq1) as (c0 & Hl).
            rewrite HPP in Hq1.
            assert (Z.odd q = true) as Hodd.
            { destruct (Z.odd q) eqn:Eo; [done|]. exfalso.
              pose proof (Zmod_odd q) as Hpar. rewrite Eo in Hpar. lia. }
            unfold q', l' in E. rewrite Hl, round_54_inexact_odd in E by (done || lia).
            lia.
          + rewrite HPP in Hge1, Hq1. destruct Hcases as [E'|(E' & _)]; lia.
        - intros H0. destruct (Hex0 H0) as (Hqk & _).
          assert (Z.odd q = false) as Hev.
          { destruct (Z.odd q) eqn:Eo; [|done]. exfalso.
            pose proof (Zmod_odd q) as Hpar. rewrite Eo in Hpar.
            rewrite HPP in Hqk. lia. }
          unfold q', l'. rewrite (Hl0 H0), round_54_exact by (done || lia).
          rewrite Hqk, HPP. replace (k * (2 * P')) with (k * P' * 2) by lia.
          by rewrite Z.div_mul by lia. }
      destruct (Z.lt_ge_cases q' (2 ^ 53)) as [Hlt'|Hge'].
      + exists (Z.to_pos q'), (- c + 1), q', (- c + 1).
        rewrite Z2Pos.id, Z.sub_diag, Z.mul_1_r by lia.
        replace (- (- c + 1)) with (c - 1) by lia. fold P'.
        split; [|split; [lia|]; split; [lia|]; done].
        intros s. rewrite binary_round_aux_54 by lia. cbv zeta. fold l' q'.
        by replace (q' <? 2 ^ 53) with true by lia.
      + assert (2 <= c) by (apply Hcarry; lia).
        exists (Z.to_pos (2 ^ 52)), (- c + 2), q', (- c + 1).
        rewrite Z2Pos.id by lia.
        replace (- (- c + 1)) with (c - 1) by lia. fold P'.
        split; [|split; [lia|]; split; [lia|]; split; [|done]].
        * intros s. rewrite binary_round_aux_54 by lia. cbv zeta. fold l' q'.
          by replace (q' <? 2 ^ 53) with false by lia.
        * replace (- c + 2 - (- c + 1)) with 1 by lia. lia. }
  destruct Hgoal as (M & E & q' & e0 & Hround & HM & HE & Hval & Hfl & Hexact).
  exists M, E. split; [done|]. split; [done|]. split.
  - intros s. simpl SFdiv. rewrite SFdiv_core_53 by lia. fold q r l.
    replace (- a - - b - 53) with (- c) by (unfold c; lia).
    rewrite xorb_false_r. apply Hround.
  - split; [done|]. split; [lia|]. intros s.
    rewrite (rounded_floor_signed s q' e0) by done.
    apply (same_floor_signed q' (2 ^ (- e0)) T f k s); try done.
    + apply Z.pow_pos_nonneg; lia.
    + lia.
Qed.

End NumberFacts.

(** ** Occupancy *)

Section CapacityFacts.
Import PyNum Capacity.
Local Open Scope Z_scope.

(** [floor] of an integer below 2^53 in absolute value is that integer,
    as a float. *)
Lemma floor_int_exact n :
  - 2 ^ 53 < n < 2 ^ 53 ->
  exists fl, floor (PyInt n) = Ok (PyFloat fl) /\ int_value (PyFloat fl) = Some n.
Proof.
  intros Hn. unfold floor, float_of_int.
  assert (Hshift : forall s p m a, 0 <= a -> Zpos m = Zpos p * 2 ^ a ->
            cond_Zopp s (Zpos m) / 2 ^ a = cond_Zopp s (Zpos p)).
  { intros s p m a Ha Hm.
    assert (0 < 2 ^ a) by (apply Z.pow_pos_nonneg; lia).
    replace (cond_Zopp s (Zpos m)) with (cond_Zopp s (Zpos p) * 2 ^ a)
      by (destruct s; simpl; lia).
    apply Z.div_mul. lia. }
  destruct n as [|p|p]; simpl binary_normalize.
  - eexists. split; reflexivity.
  - destruct (binary_round_small p) as (m & a & -> & Hm & Ha & Hr); [lia|].
    exists (SFfloor (S754_finite false m (- a))). split; [reflexivity|].
    rewrite int_value_floor by lia.
    by rewrite Z.opp_involutive, (Hshift false p) by lia.
  - destruct (binary_round_small p) as (m & a & -> & Hm & Ha & Hr); [lia|].
    exists (SFfloor (S754_finite true m (- a))). split; [reflexivity|].
    rewrite int_value_floor by lia.
    by rewrite Z.opp_involutive, (Hshift true p) by lia.
Qed.

(** The maximum of a dimension when the footprint is positive. *)
Lemma float_quotient_floor_value t f :
  - 2 ^ 53 < t < 2 ^ 53 -> 0 < f < 2 ^ 53 ->
  exists q fl,
    float_quotient t f = Ok (PyFloat q) /\
    floor (PyFloat q) = Ok (PyFloat fl) /\
    int_value (PyFloat fl) = Some (t / f).
Proof.
  intros Ht Hf. unfold float_quotient.
  destruct (Z.eq_dec t 0) as [->|Hne].
  - destruct (float_of_int_signed f Hf) as (m2 & b & Hff & _).
    specialize (Hff false). simpl in Hff. rewrite Hff.
    simpl. eexists _, _. split; [reflexivity|]. split; [reflexivity|].
    by rewrite Z.div_0_l by lia.
  - set (s := t <? 0).
    assert (Hs : t = cond_Zopp s (Z.abs t))
      by (unfold s; destruct (Z.ltb_spec t 0); simpl; lia).
    destruct (float_quotient_floor (Z.abs t) f)
      as (m1 & a & m2 & b & M & E & Hft & Hff & Hd & HM & HE & Hv); [lia|lia|].
    replace (float_of_int t) with (float_of_int (cond_Zopp s (Z.abs t)))
      by (by rewrite <- Hs).
    rewrite (Hft s), Hff.
    cbn [result_bind]. unfold float_div. cbn [is_zero result_bind]. rewrite Hd.
    exists (S754_finite s M E), (SFfloor (S754_finite s M E)).
    split; [reflexivity|]. split; [reflexivity|].
    by rewrite int_value_floor, Hv, <- Hs.
Qed.

Lemma quotient_in_range n f :
  - 2 ^ 53 < n < 2 ^ 53 -> 0 < f -> - 2 ^ 53 < n / f < 2 ^ 53.
Proof.
  intros Hn Hf. split.
  - assert (- 2 ^ 53 + 1 <= n / f); [|lia]. apply Z.div_le_lower_bound; nia.
  - apply Z.div_lt_upper_bound; nia.
Qed.

Lemma total_remaining_positive plat q fl t u f :
  floor (PyFloat q) = Ok (PyFloat fl) -> 0 < f -> - 2 ^ 53 < t - u < 2 ^ 53 ->
  exists fr,
    total_remaining plat (PyFloat q) t u f = Ok (PyFloat fl, PyFloat fr) /\
    int_value (PyFloat fr) = Some ((t - u) / f).
Proof.
  intros Hfl Hf Hn. unfold total_remaining.
  replace (f =? 0) with false by lia. cbn [negb]. rewrite Hfl. cbn [result_bind].
  destruct (floor_int_exact ((t - u) / f)) as (fr & -> & Hv);
    [by apply quotient_in_range|].
  by exists fr.
Qed.

Lemma stats_positive plat t u f :
  0 < f < 2 ^ 53 -> - 2 ^ 53 < t < 2 ^ 53 -> - 2 ^ 53 < t - u < 2 ^ 53 ->
  exists mx rem,
    result_bind (float_quotient t f)
      (fun max_ => total_remaining plat max_ t u f) = Ok (PyFloat mx, PyFloat rem) /\
    int_value (PyFloat mx) = Some (t / f) /\
    int_value (PyFloat rem) = Some ((t - u) / f).
Proof.
  intros Hf Ht Hn.
  destruct (float_quotient_floor_value t f Ht Hf) as (q & fl & -> & Hfl & Hv).
  cbn [result_bind].
  destruct (total_remaining_positive plat q fl t u f Hfl ltac:(lia) Hn) as (fr & -> & Hr).
  by exists fl, fr.
Qed.

(** C2 (amended). For a size whose footprint in a dimension is [f] with
    [0 < f < 2^53], a total [t] with [|t| < 2^53] and a used count [u]
    with [|t - u| < 2^53], the figure of that dimension is a pair of
    floats equal to [floor(t / f)] and [floor((t - u) / f)]. *)
Theorem capacity_of_positive_footprint plat d occ s f :
  footprint_is d s f ->
  0 < f < 2 ^ 53 ->
  - 2 ^ 53 < total_of d occ < 2 ^ 53 ->
  - 2 ^ 53 < total_of d occ - used_of d occ < 2 ^ 53 ->
  exists mx rem,
    dimension_stats plat d occ s = Ok (PyFloat mx, PyFloat rem) /\
    int_value (PyFloat mx) = Some (total_of d occ / f) /\
    int_value (PyFloat rem) = Some ((total_of d occ - used_of d occ) / f).
Proof.
  intros Hfp Hf Ht Hn.
  destruct (stats_positive plat _ _ f Hf Ht Hn) as (mx & rem & Hs & Hm & Hr).
  exists mx, rem. split; [|done]. rewrite <- Hs.
  destruct d; simpl in Hfp |- *.
  - destruct Hfp as (Hc & Hcpu). unfold _cpu_stats.
    destruct (cpu_count s) as [w c]. simpl in Hc. subst c. simpl.
    rewrite Hcpu. by replace (0 <? f) with true by lia.
  - destruct Hfp as (Hns & Hram). unfold _ram_stats. rewrite Hns, Hram.
    by replace (0 <? f) with true by lia.
  - unfold _disk_stats. rewrite Hfp. by replace (0 <? f) with true by lia.
Qed.

Lemma capacity_of_positive_footprint_witness :
  footprint_is CPU (Sample.flavor 4 2048 20) 4 /\
  0 < 4 < 2 ^ 53 /\
  - 2 ^ 53 < 32 < 2 ^ 53 /\
  - 2 ^ 53 < 32 - 16 < 2 ^ 53 /\
  exists mx rem,
    dimension_stats Long64 CPU (Sample.hypervisors 32 16 65536 1024 500 100)
      (Sample.flavor 4 2048 20) = Ok (PyFloat mx, PyFloat rem) /\
    int_value (PyFloat mx) = Some (32 / 4) /\
    int_value (PyFloat rem) = Some ((32 - 16) / 4).
Proof.
  split; [by split|]. split; [lia|]. split; [lia|]. split; [lia|].
  apply (capacity_of_positive_footprint Long64 CPU
           (Sample.hypervisors 32 16 65536 1024 500 100) (Sample.flavor 4 2048 20) 4).
  - by split.
  - lia.
  - simpl. lia.
  - simpl. lia.
Defined.

(** C2 as stated fails for large counters: with a total of [2^53 + 1]
    megabytes and a footprint of 1, the maximum is [2^53], because
    [float(2^53 + 1)] is rounded before the division. *)
Lemma capacity_beyond_2_53 :
  let occ := Sample.hypervisors 32 16 (2 ^ 53 + 1) 0 500 100 in
  let s := Sample.flavor 4 1 20 in
  footprint_is RAM s 1 /\ 0 < 1 /\
  ~ exists mx rem,
      dimension_stats Long64 RAM occ s = Ok (mx, rem) /\
      int_value mx = Some (total_of RAM occ / 1) /\
      int_value rem = Some ((total_of RAM occ - used_of RAM occ) / 1).
Proof.
  split; [by split|]. split; [lia|].
  intros (mx & rem & Hs & Hm & _).
  vm_compute in Hs. injection Hs as <- <-. vm_compute in Hm. discriminate Hm.
Qed.

(** C4 (amended). When the footprint of a dimension is 0, no division
    is evaluated and the figure is [(floor(sys.maxint), sys.maxint)]: the
    remaining count is the integer [sys.maxint] itself, the maximum is the
    float nearest to it, which is [2^31 - 1] where a C long has 32 bits
    and [2^63] where it has 64. *)
Theorem capacity_of_zero_footprint plat d occ s :
  footprint_is d s 0 ->
  exists mx,
    floor (PyInt (sys_maxint plat)) = Ok mx /\
    dimension_stats plat d occ s = Ok (mx, PyInt (sys_maxint plat)) /\
    int_value mx = Some (match plat with Long32 => 2 ^ 31 - 1 | Long64 => 2 ^ 63 end).
Proof.
  intros Hfp.
  assert (exists mx, floor (PyInt (sys_maxint plat)) = Ok mx /\
            int_value mx = Some (match plat with Long32 => 2 ^ 31 - 1 | Long64 => 2 ^ 63 end))
    as (mx & Hfl & Hv) by (destruct plat; eexists; split; vm_compute; reflexivity).
  exists mx. split; [done|]. split; [|done].
  assert (Hz : result_bind (Ok (PyInt (maxint plat)))
                 (fun max_ => total_remaining plat max_ (total_of d occ) (used_of d occ) 0)
               = Ok (mx, PyInt (sys_maxint plat))).
  { cbn [result_bind]. unfold total_remaining. change (0 =? 0) with true.
    cbn [negb]. unfold maxint. by rewrite Hfl. }
  rewrite <- Hz.
  destruct d; simpl in Hfp |- *.
  - destruct Hfp as (Hc & Hcpu). unfold _cpu_stats.
    destruct (cpu_count s) as [w c]. simpl in Hc. by subst c.
  - destruct Hfp as (Hns & Hram). unfold _ram_stats. by rewrite Hns, Hram.
  - unfold _disk_stats. by rewrite Hfp.
Qed.

Lemma capacity_of_zero_footprint_witness :
  footprint_is Disk (Sample.flavor 4 2048 0) 0 /\
  exists mx,
    floor (PyInt (sys_maxint Long64)) = Ok mx /\
    dimension_stats Long64 Disk (Sample.hypervisors 32 16 65536 1024 500 100)
      (Sample.flavor 4 2048 0) = Ok (mx, PyInt (sys_maxint Long64)) /\
    int_value mx = Some (2 ^ 63).
Proof.
  split; [reflexivity|].
  apply (capacity_of_zero_footprint Long64 Disk
           (Sample.hypervisors 32 16 65536 1024 500 100) (Sample.flavor 4 2048 0)).
  reflexivity.
Defined.

(** C4 as stated fails on a 64-bit platform: the maximum of a
    zero-footprint dimension is [2^63], not [sys.maxint = 2^63 - 1]. *)
Lemma zero_footprint_max_is_not_maxint :
  let occ := Sample.hypervisors 32 16 65536 1024 500 100 in
  let s := Sample.flavor 4 0 20 in
  footprint_is RAM s 0 /\
  ~ exists mx rem,
      dimension_stats Long64 RAM occ s = Ok (mx, rem) /\
      int_value mx = Some (sys_maxint Long64) /\
      int_value rem = Some (sys_maxint Long64).
Proof.
  split; [by split|].
  intros (mx & rem & Hs & Hm & _).
  vm_compute in Hs. injection Hs as <- <-. vm_compute in Hm. discriminate Hm.
Qed.

(** C3 (what the code does instead). The footprint is resolved from the
    driver-level size ([vcpus = 4] here), but the maximum divides the
    total by [size.cpu]: with 32 CPUs in total and [size.cpu = 2] the
    maximum is 16, not [32 / 4 = 8], while the remaining count does use
    the resolved footprint; with [size.cpu = 0] the division raises
    although the resolved footprint is positive. *)
Theorem cpu_stats_divides_by_size_cpu :
  cpu_count (Sample.mismatched 2) = ([], 4) /\
  cpu_count (Sample.mismatched 0) = ([], 4) /\
  (exists mx rem,
     _cpu_stats Long64 (Sample.mismatched 2) 32 16 = ([], Ok (mx, rem)) /\
     int_value mx = Some (32 / 2) /\
     int_value mx <> Some (32 / 4) /\
     int_value rem = Some ((32 - 16) / 4)) /\
  _cpu_stats Long64 (Sample.mismatched 0) 32 16 = ([], Raise ZeroDivisionError).
Proof.
  split; [reflexivity|]. split; [reflexivity|]. split; [|vm_compute; reflexivity].
  eexists _, _. split; [vm_compute; reflexivity|].
  split; [vm_compute; reflexivity|]. split; [vm_compute; discriminate|].
  vm_compute; reflexivity.
Qed.

(** *** The order of Python numbers *)

Lemma dyadic_ltb_common m1 e1 m2 e2 e :
  e <= e1 -> e <= e2 ->
  dyadic_ltb m1 e1 m2 e2 = (m1 * 2 ^ (e1 - e) <? m2 * 2 ^ (e2 - e)).
Proof.
  intros H1 H2. unfold dyadic_ltb. set (e0 := Z.min e1 e2).
  assert (0 < 2 ^ (e0 - e)) as Hp by (apply Z.pow_pos_nonneg; unfold e0; lia).
  replace (e1 - e) with ((e1 - e0) + (e0 - e)) by lia.
  replace (e2 - e) with ((e2 - e0) + (e0 - e)) by lia.
  rewrite !Z.pow_add_r by (unfold e0; lia).
  rewrite !Z.mul_assoc.
  destruct (Z.ltb_spec (m1 * 2 ^ (e1 - e0)) (m2 * 2 ^ (e2 - e0)));
    destruct (Z.ltb_spec (m1 * 2 ^ (e1 - e0) * 2 ^ (e0 - e))
                         (m2 * 2 ^ (e2 - e0) * 2 ^ (e0 - e))); try done; nia.
Qed.

Lemma exact_ltb_irrefl a : exact_ltb a a = false.
Proof.
  destruct a; try done. simpl. unfold dyadic_ltb. apply Z.ltb_irrefl.
Qed.

Lemma exact_ltb_trans a b c :
  exact_ltb a b = true -> exact_ltb b c = true -> exact_ltb a c = true.
Proof.
  destruct a as [| |ma ea|], b as [| |mb eb|], c as [| |mc ec|]; try done.
  simpl. set (e := Z.min ea (Z.min eb ec)).
  rewrite (dyadic_ltb_common ma ea mb eb e), (dyadic_ltb_common mb eb mc ec e),
    (dyadic_ltb_common ma ea mc ec e) by (unfold e; lia).
  intros H1%Z.ltb_lt H2%Z.ltb_lt. apply Z.ltb_lt. lia.
Qed.

Lemma py_lt_irrefl a : py_lt a a = false.
Proof. apply exact_ltb_irrefl. Qed.

Lemma py_lt_trans a b c : py_lt a b = true -> py_lt b c = true -> py_lt a c = true.
Proof. apply exact_ltb_trans. Qed.

Lemma py_lt_asym a b : py_lt a b = true -> py_lt b a = false.
Proof.
  intros H1. destruct (py_lt b a) eqn:H2; [|done].
  by rewrite <- (py_lt_irrefl a), (py_lt_trans a b a).
Qed.

(** [min] of two: the result is one of them and neither is below it. *)
Lemma py_min2_least best item :
  let r := py_min2 best item in
  (r = best \/ r = item) /\ py_lt best r = false /\ py_lt item r = false.
Proof.
  unfold py_min2. destruct (py_lt item best) eqn:E; simpl.
  - split; [by right|]. split; [by apply py_lt_asym|apply py_lt_irrefl].
  - split; [by left|]. split; [apply py_lt_irrefl|done].
Qed.

Lemma not_below_trans x r r' :
  py_lt x r = false -> (r' = r \/ py_lt r' r = true) -> py_lt x r' = false.
Proof.
  intros Hx [->|Hr]; [done|].
  destruct (py_lt x r') eqn:E; [|done].
  by rewrite (py_lt_trans x r' r) in Hx.
Qed.

Lemma py_min3_least a b c : is_least (py_min3 a b c) [a; b; c].
Proof.
  split.
  - unfold py_min3, py_min2. repeat case_match; set_solver.
  - destruct (py_min2_least a b) as (_ & Ha & Hb).
    destruct (py_min2_least (py_min2 a b) c) as (_ & Hm & Hc).
    cbv zeta in Ha, Hb, Hm, Hc. fold (py_min3 a b c) in Hm, Hc.
    assert (Hrm : py_min3 a b c = py_min2 a b \/
                  py_lt (py_min3 a b c) (py_min2 a b) = true).
    { unfold py_min3. set (m := py_min2 a b). unfold py_min2.
      destruct (py_lt c m) eqn:E; auto. }
    intros y Hy.
    apply elem_of_cons in Hy as [->|Hy]; [by apply (not_below_trans a (py_min2 a b))|].
    apply elem_of_cons in Hy as [->|Hy]; [by apply (not_below_trans b (py_min2 a b))|].
    by apply list_elem_of_singleton in Hy as ->.
Qed.

(** C5. When [occupancy] returns, every size carries, under the key
    "occupancy" of its [extra], a total that is the minimum of the three
    per-dimension totals and a remaining count that is the minimum of the
    three per-dimension remaining counts. *)
Theorem occupancy_is_elementwise_minimum plat occ sizes w sizes' :
  occupancy plat occ sizes = (w, Ok sizes') ->
  Forall2 (fun s s' =>
    exists total_cpu remaining_cpu total_ram remaining_ram total_disk remaining_disk,
      dimension_stats plat CPU occ s = Ok (total_cpu, remaining_cpu) /\
      dimension_stats plat RAM occ s = Ok (total_ram, remaining_ram) /\
      dimension_stats plat Disk occ s = Ok (total_disk, remaining_disk) /\
      extra s' !! "occupancy" =
        Some (ExtraOccupancy (py_min3 total_cpu total_ram total_disk)
                             (py_min3 remaining_cpu remaining_ram remaining_disk)) /\
      is_least (py_min3 total_cpu total_ram total_disk)
               [total_cpu; total_ram; total_disk] /\
      is_least (py_min3 remaining_cpu remaining_ram remaining_disk)
               [remaining_cpu; remaining_ram; remaining_disk])
    sizes sizes'.
Proof.
  unfold occupancy. revert w sizes'.
  induction sizes as [|s rest IH]; intros w sizes'; simpl.
  - intros [= _ <-]. constructor.
  - destruct (occupancy_of_size plat occ s) as [w1 [s1|e]] eqn:E1; [|done].
    destruct (occupancy_loop plat occ rest) as [w2 [rest'|e]] eqn:E2; [|done].
    simpl. intros [= _ <-]. constructor; [|by eapply IH].
    clear IH E2. revert E1. unfold occupancy_of_size, dimension_stats.
    destruct (_cpu_stats plat s (vcpus occ) (vcpus_used occ)) as [wc [[tc rc]|e]];
      [|done].
    simpl.
    destruct (_ram_stats plat s (memory_mb occ) (memory_mb_used occ)) as [[tr rr]|e];
      [|done].
    simpl.
    destruct (_disk_stats plat s (local_gb occ) (local_gb_used occ)) as [[td rd]|e];
      [|done].
    simpl. intros [= _ <-]. exists tc, rc, tr, rr, td, rd.
    do 3 (split; [done|]). split; [apply lookup_insert_eq|].
    split; apply py_min3_least.
Qed.

Lemma occupancy_is_elementwise_minimum_witness :
  exists w sizes',
    occupancy Long64 (Sample.hypervisors 32 16 65536 1024 500 100)
      [Sample.flavor 4 2048 20; Sample.flavor 1 512 0] = (w, Ok sizes') /\
    Forall2 (fun s s' =>
      exists total_cpu remaining_cpu total_ram remaining_ram total_disk remaining_disk,
        dimension_stats Long64 CPU (Sample.hypervisors 32 16 65536 1024 500 100) s
          = Ok (total_cpu, remaining_cpu) /\
        dimension_stats Long64 RAM (Sample.hypervisors 32 16 65536 1024 500 100) s
          = Ok (total_ram, remaining_ram) /\
        dimension_stats Long64 Disk (Sample.hypervisors 32 16 65536 1024 500 100) s
          = Ok (total_disk, remaining_disk) /\
        extra s' !! "occupancy" =
          Some (ExtraOccupancy (py_min3 total_cpu total_ram total_disk)
                               (py_min3 remaining_cpu remaining_ram remaining_disk)) /\
        is_least (py_min3 total_cpu total_ram total_disk)
                 [total_cpu; total_ram; total_disk] /\
        is_least (py_min3 remaining_cpu remaining_ram remaining_disk)
                 [remaining_cpu; remaining_ram; remaining_disk])
      [Sample.flavor 4 2048 20; Sample.flavor 1 512 0] sizes'.
Proof.
  destruct (occupancy Long64 (Sample.hypervisors 32 16 65536 1024 500 100)
              [Sample.flavor 4 2048 20; Sample.flavor 1 512 0]) as [w [sizes'|e]] eqn:E;
    [|vm_compute in E; discriminate E].
  exists w, sizes'. split; [reflexivity|].
  exact (occupancy_is_elementwise_minimum Long64 _ _ w sizes' E).
Defined.

End CapacityFacts.

(** * Further properties *)

(** ** The registry: keys, reset and failures *)

Section RegistryMore.
Import Registry Listing.
Context {Provider Identity : Type}.
Context `{Countable Provider} `{Countable Identity}.
Variables AWSProvider EucaProvider OSProvider : Provider.
Variable metaCls : Provider -> meta_class.
Variable subclass_admin_driver :
  meta_class -> @Driver Provider Identity -> result (@Driver Provider Identity).

Abbreviation get_meta' :=
  (get_meta AWSProvider EucaProvider OSProvider metaCls subclass_admin_driver).
Abbreviation create_meta' := (create_meta metaCls subclass_admin_driver).
Abbreviation cls_provider' := (cls_provider AWSProvider EucaProvider OSProvider).
Abbreviation state' := (@state Provider Identity _ _ _ _).
Abbreviation get_metas' := (get_metas AWSProvider EucaProvider OSProvider metaCls).

(** What [create_meta] does to the state, spelled out. *)
Lemma create_meta_state cls d a s s1 m :
  create_meta' cls d a s = (s1, Ok m) ->
  meta_oid m = next_oid s /\ meta_driver m = d /\
  (forall x, a = Some x -> meta_admin_driver m = x) /\
  next_oid s1 = S (next_oid s) /\
  base_metas s1 = base_metas s /\ own_metas s1 = own_metas s /\
  heap s1 = <[ metas_ref cls s :=
               <[ (Some (provider d), identity d) := m ]> (metas_of cls s) ]> (heap s).
Proof.
  unfold Registry.create_meta, new_meta.
  destruct a as [a|]; [|destruct (create_admin_driver _ _ _) as [a|e]];
    intros [= <- <-] || done.
  all: simpl; repeat split; try done; try (by intros x [= <-]).
  all: unfold metas_of; by destruct cls.
Qed.

Lemma create_meta_failure cls d a s s1 e :
  create_meta' cls d a s = (s1, Raise e) ->
  heap s1 = heap s /\ base_metas s1 = base_metas s /\ own_metas s1 = own_metas s /\
  next_oid s1 = S (next_oid s).
Proof.
  unfold Registry.create_meta, new_meta.
  destruct a as [a|]; [|destruct (create_admin_driver _ _ _) as [a|e']];
    intros [= <- <-] || done.
  done.
Qed.

Lemma metas_of_ext cls (s s1 : @state Provider Identity _ _ _ _) :
  heap s1 = heap s -> base_metas s1 = base_metas s -> own_metas s1 = own_metas s ->
  metas_of cls s1 = metas_of cls s.
Proof.
  intros Hh Hb Ho. unfold metas_of, metas_ref. rewrite Hh, Hb, Ho. done.
Qed.

Lemma metas_ref_ext cls (s s1 : @state Provider Identity _ _ _ _) :
  base_metas s1 = base_metas s -> own_metas s1 = own_metas s ->
  metas_ref cls s1 = metas_ref cls s.
Proof. intros Hb Ho. unfold metas_ref. by rewrite Hb, Ho. Qed.

Lemma allocated_initial : allocated (Provider:=Provider) (Identity:=Identity) initial.
Proof.
  split; [simpl; lia|]. split; [done|].
  intros r dict k m Hr Hk. simpl in Hr.
  apply lookup_singleton_Some in Hr as [_ <-]. by rewrite lookup_empty in Hk.
Qed.

Lemma metas_ref_allocated cls (s : state') : allocated s -> metas_ref cls s < next_oid s.
Proof.
  intros (Hb & Ho & _). unfold metas_ref.
  destruct cls; try done; destruct (own_metas s _) as [r|] eqn:E; simpl; eauto.
Qed.

Lemma allocated_create_meta cls d a s s1 res :
  allocated s -> create_meta' cls d a s = (s1, res) -> allocated s1.
Proof.
  intros (Hb & Ho & Hm) Hc. destruct res as [m|e].
  - destruct (create_meta_state _ _ _ _ _ _ Hc) as (Hoid & _ & _ & Hn & Hb1 & Ho1 & Hh).
    split; [rewrite Hb1, Hn; lia|]. split.
    { intros c r. rewrite Ho1, Hn. intros Hr. apply Ho in Hr. lia. }
    intros r dict k m' Hr Hk. rewrite Hn. rewrite Hh in Hr.
    apply lookup_insert_Some in Hr as [[_ <-]|[_ Hr]].
    + apply lookup_insert_Some in Hk as [[_ <-]|[_ Hk]]; [lia|].
      unfold metas_of in Hk. destruct (heap s !! _) as [dict0|] eqn:E0; simpl in Hk.
      * specialize (Hm _ _ _ _ E0 Hk). lia.
      * by rewrite lookup_empty in Hk.
    + specialize (Hm _ _ _ _ Hr Hk). lia.
  - destruct (create_meta_failure _ _ _ _ _ _ Hc) as (Hh & Hb1 & Ho1 & Hn).
    split; [rewrite Hb1, Hn; lia|]. split.
    { intros c r. rewrite Ho1, Hn. intros Hr. apply Ho in Hr. lia. }
    intros r dict k m' Hr Hk. rewrite Hn. rewrite Hh in Hr.
    specialize (Hm _ _ _ _ Hr Hk). lia.
Qed.

Lemma allocated_get_meta cls d s s1 res :
  allocated s -> get_meta' cls d s = (s1, res) -> allocated s1.
Proof.
  intros Hs. unfold Registry.get_meta.
  destruct (metas_of cls s !! _); [by intros [= <- _]|].
  by apply allocated_create_meta.
Qed.

Lemma allocated_reset cls (s : @state Provider Identity _ _ _ _) :
  allocated s -> allocated (reset cls s).
Proof.
  intros (Hb & Ho & Hm). split; [|split].
  - simpl. destruct cls; lia.
  - intros c r. simpl. destruct cls; try (intros Hr; apply Ho in Hr; lia).
    all: case_decide; [intros [= <-]; lia|intros Hr; apply Ho in Hr; lia].
  - intros r dict k m Hr Hk. simpl in *.
    apply lookup_insert_Some in Hr as [[_ <-]|[_ Hr]].
    + by rewrite lookup_empty in Hk.
    + specialize (Hm _ _ _ _ Hr Hk). lia.
Qed.

Lemma shared_initial : shared (Provider:=Provider) (Identity:=Identity) initial.
Proof. done. Qed.

Lemma shared_create_meta cls d a s s1 res :
  shared s -> create_meta' cls d a s = (s1, res) -> shared s1.
Proof.
  intros Hs Hc c. destruct res as [m|e].
  - destruct (create_meta_state _ _ _ _ _ _ Hc) as (_ & _ & _ & _ & _ & -> & _). apply Hs.
  - destruct (create_meta_failure _ _ _ _ _ _ Hc) as (_ & _ & -> & _). apply Hs.
Qed.

Lemma shared_metas_ref cls (s : state') : shared s -> metas_ref cls s = base_metas s.
Proof. intros Hs. unfold metas_ref. destruct cls; try done; by rewrite Hs. Qed.

Lemma shared_metas_of cls (s : state') : shared s -> metas_of cls s = metas_of Meta s.
Proof. intros Hs. unfold metas_of. by rewrite !shared_metas_ref. Qed.

(** X1. The cache is keyed by provider and identity, not by driver: once
    [cls.get_meta] has returned an object for a driver whose provider is
    the key [cls.provider], a call with any driver of the same provider
    and identity returns that same object, bound to the first driver,
    and changes nothing. *)
Theorem get_meta_keyed_by_provider_and_identity cls d d' s s1 m1 :
  cls_provider' cls = Some (provider d) ->
  provider d' = provider d -> identity d' = identity d ->
  get_meta' cls d s = (s1, Ok m1) ->
  get_meta' cls d' s1 = (s1, Ok m1) /\
  (metas_of cls s !! (Some (provider d), identity d) = None -> meta_driver m1 = d).
Proof.
  intros Hk Hp Hi Hg. split.
  - assert (metas_of cls s1 !! (Some (provider d), identity d) = Some m1) as Hin.
    { revert Hg. unfold Registry.get_meta. rewrite Hk.
      destruct (metas_of cls s !! _) as [m|] eqn:E.
      - by intros [= <- <-].
      - intros Hc. by destruct (create_meta_stores _ _ _ _ _ _ _ _ Hc) as (? & _). }
    unfold Registry.get_meta. by rewrite Hk, Hi, Hin.
  - intros Hmiss. revert Hg. unfold Registry.get_meta. rewrite Hk, Hmiss.
    intros Hc. by destruct (create_meta_state _ _ _ _ _ _ Hc) as (_ & ? & _).
Qed.

(** X2. After [cls.reset()], [cls.get_meta] builds an object that is
    none of the objects cached before, in any dictionary, and the
    registry of [cls] holds that object and nothing else. *)
Theorem get_meta_after_reset_is_fresh cls d s s1 m :
  allocated s ->
  get_meta' cls d (reset cls s) = (s1, Ok m) ->
  (forall r dict k m0,
     heap s !! r = Some dict -> dict !! k = Some m0 -> meta_oid m0 <> meta_oid m) /\
  metas_of cls s1 = {[ (Some (provider d), identity d) := m ]}.
Proof.
  intros (Hb & Ho & Hm). rewrite get_meta_after_reset. intros Hc.
  destruct (create_meta_state _ _ _ _ _ _ Hc) as (Hoid & _ & _ & Hn & Hb1 & Ho1 & Hh).
  split.
  - intros r dict k m0 Hr Hk0. specialize (Hm _ _ _ _ Hr Hk0).
    rewrite Hoid. simpl. lia.
  - unfold metas_of at 1. rewrite (metas_ref_ext cls (reset cls s) s1 Hb1 Ho1), Hh.
    rewrite lookup_insert_eq. simpl. by rewrite metas_of_reset, insert_empty.
Qed.

(** X3. [reset] on a subclass gives that subclass an empty registry of
    its own and leaves the registry of every other class as it was;
    what is then cached through [Meta] is not seen by the subclass. *)
Theorem subclass_reset_is_local cls (s : state') :
  allocated s -> cls <> Meta ->
  metas_of cls (reset cls s) = ∅ /\
  (forall c, c <> cls -> metas_of c (reset cls s) = metas_of c s) /\
  (forall d a s1 m,
     create_meta' Meta d a (reset cls s) = (s1, Ok m) ->
     metas_of cls s1 = ∅ /\
     metas_of Meta s1 !! (Some (provider d), identity d) = Some m).
Proof.
  intros Hs Hcls. pose proof Hs as (Hb & Ho & Hm).
  split; [apply metas_of_reset|]. split.
  - intros c Hc. unfold metas_of.
    assert (metas_ref c (reset cls s) = metas_ref c s) as ->.
    { unfold metas_ref. destruct cls, c; simpl; try done; by rewrite decide_False. }
    simpl. rewrite lookup_insert_ne; [by destruct cls|].
    pose proof (metas_ref_allocated c s Hs). destruct cls; simpl; lia.
  - intros d a s1 m Hc.
    destruct (create_meta_state _ _ _ _ _ _ Hc) as (_ & _ & _ & _ & Hb1 & Ho1 & Hh).
    split.
    + unfold metas_of. rewrite (metas_ref_ext cls (reset cls s) s1 Hb1 Ho1), Hh.
      rewrite metas_ref_reset.
      rewrite lookup_insert_ne.
      * simpl. destruct cls; try done; by rewrite lookup_insert_eq.
      * destruct cls; try done; simpl; lia.
    + unfold metas_of. rewrite (metas_ref_ext Meta (reset cls s) s1 Hb1 Ho1), Hh.
      rewrite lookup_insert_eq. simpl. by rewrite lookup_insert_eq.
Qed.

(** X4. As long as no subclass has been reset, all classes share one
    dictionary: what [create_meta] caches through one class is found
    through every class. *)
Theorem create_meta_is_seen_by_every_class cls d a s s1 m :
  shared s ->
  create_meta' cls d a s = (s1, Ok m) ->
  forall c, metas_of c s1 !! (Some (provider d), identity d) = Some m.
Proof.
  intros Hs Hc c.
  pose proof (shared_create_meta _ _ _ _ _ _ Hs Hc) as Hs1.
  rewrite (shared_metas_of c s1 Hs1), <- (shared_metas_of cls s1 Hs1).
  by destruct (create_meta_stores _ _ _ _ _ _ _ _ Hc) as (? & _).
Qed.

(** X5. When [create_admin_driver] of the provider's [metaCls] raises
    (on [Meta] itself it always does, with [NotImplementedError]),
    building without an admin driver raises the same exception and
    caches nothing, so that a [get_meta] that missed fails again when
    repeated; with an admin driver given, [create_admin_driver] is not
    called and the object keeps that driver. *)
Theorem failed_admin_driver_caches_nothing cls d s e :
  create_admin_driver subclass_admin_driver (metaCls (provider d)) d = Raise e ->
  (metaCls (provider d) = Meta -> e = NotImplementedError) /\
  (exists s1, create_meta' cls d None s = (s1, Raise e) /\
              forall c, metas_of c s1 = metas_of c s) /\
  (metas_of cls s !! (cls_provider' cls, identity d) = None ->
   exists s1, get_meta' cls d s = (s1, Raise e) /\
              snd (get_meta' cls d s1) = Raise e) /\
  (forall a, exists s1 m,
     create_meta' cls d (Some a) s = (s1, Ok m) /\ meta_admin_driver m = a /\
     meta_cls m = metaCls (provider d)).
Proof.
  intros Hfail.
  assert (forall s0 : state', exists s1,
            create_meta' cls d None s0 = (s1, Raise e) /\
            forall c, metas_of c s1 = metas_of c s0) as Hcreate.
  { intros s0. unfold Registry.create_meta, new_meta. rewrite Hfail.
    eexists. split; [reflexivity|]. intros c. by apply metas_of_ext. }
  split; [|split; [|split]].
  - intros Hbase. rewrite Hbase in Hfail. simpl in Hfail. congruence.
  - apply Hcreate.
  - intros Hmiss. destruct (Hcreate s) as (s1 & Hc & Hsame).
    exists s1. unfold Registry.get_meta. rewrite Hmiss. split; [done|].
    rewrite Hsame, Hmiss. destruct (Hcreate s1) as (s2 & -> & _). done.
  - intros a. unfold Registry.create_meta, new_meta.
    eexists _, _. split; [reflexivity|]. done.
Qed.

(** X6. As long as no subclass has been reset, [get_metas] is exactly
    the shared registry [Meta.metas]. *)
Theorem get_metas_is_the_shared_registry (s : state') :
  shared s -> get_metas' s = metas_of Meta s.
Proof.
  intros Hs. unfold get_metas, dict_update. simpl.
  rewrite (shared_metas_of (metaCls AWSProvider) s Hs),
    (shared_metas_of (metaCls EucaProvider) s Hs),
    (shared_metas_of (metaCls OSProvider) s Hs).
  apply map_eq. intros k. rewrite !lookup_union, lookup_empty.
  by destruct (metas_of Meta s !! k).
Qed.

End RegistryMore.

(** The registry properties on the registry keyed by names. *)

Lemma get_meta_keyed_by_provider_and_identity_witness :
  exists s1 m1,
    Sample.get_meta_by_name Registry.OSMeta Fixtures.os_class_driver Registry.initial
      = (s1, Ok m1) /\
    Sample.get_meta_by_name Registry.OSMeta Fixtures.os_class_driver_again s1
      = (s1, Ok m1) /\
    Registry.meta_driver m1 = Fixtures.os_class_driver.
Proof.
  destruct (Sample.get_meta_by_name Registry.OSMeta Fixtures.os_class_driver
              Registry.initial) as [s1 [m1|e]] eqn:E; [|discriminate E].
  exists s1, m1. split; [reflexivity|].
  destruct (get_meta_keyed_by_provider_and_identity
              "AWSProvider" "EucaProvider" "OSProvider"
              (fun _ => Registry.OSMeta) (fun _ d => Ok d)
              Registry.OSMeta Fixtures.os_class_driver Fixtures.os_class_driver_again
              Registry.initial s1 m1 eq_refl eq_refl eq_refl E) as [H1 H2].
  split; [exact H1|]. apply H2. reflexivity.
Defined.

Lemma allocated_one_cached : Listing.allocated Fixtures.one_cached.
Proof.
  unfold Fixtures.one_cached.
  destruct (Sample.get_meta_by_name Registry.OSMeta Fixtures.os_class_driver
              Registry.initial) as [s1 r] eqn:E.
  exact (allocated_get_meta _ _ _ _ _ _ _ _ _ r allocated_initial E).
Qed.

Lemma get_meta_after_reset_is_fresh_witness :
  Listing.allocated Fixtures.one_cached /\
  exists s1 m,
    Sample.get_meta_by_name Registry.OSMeta Fixtures.os_class_driver_again
      (Registry.reset Registry.OSMeta Fixtures.one_cached) = (s1, Ok m) /\
    (forall r dict k m0,
       Registry.heap Fixtures.one_cached !! r = Some dict -> dict !! k = Some m0 ->
       Registry.meta_oid m0 <> Registry.meta_oid m) /\
    Registry.metas_of Registry.OSMeta s1 = {[ (Some "OSProvider", "alice") := m ]}.
Proof.
  split; [exact allocated_one_cached|].
  destruct (Sample.get_meta_by_name Registry.OSMeta Fixtures.os_class_driver_again
              (Registry.reset Registry.OSMeta Fixtures.one_cached))
    as [s1 [m|e]] eqn:E; [|discriminate E].
  exists s1, m. split; [reflexivity|].
  exact (get_meta_after_reset_is_fresh "AWSProvider" "EucaProvider" "OSProvider"
           (fun _ => Registry.OSMeta) (fun _ d => Ok d)
           Registry.OSMeta Fixtures.os_class_driver_again Fixtures.one_cached s1 m
           allocated_one_cached E).
Defined.

Lemma subclass_reset_is_local_witness :
  Listing.allocated Fixtures.one_cached /\
  Registry.OSMeta <> Registry.Meta /\
  Registry.metas_of Registry.OSMeta
    (Registry.reset Registry.OSMeta Fixtures.one_cached) = ∅ /\
  (forall c, c <> Registry.OSMeta ->
     Registry.metas_of c (Registry.reset Registry.OSMeta Fixtures.one_cached) =
     Registry.metas_of c Fixtures.one_cached) /\
  (forall d a s1 m,
     Fixtures.create_meta_by_name Registry.Meta d a
       (Registry.reset Registry.OSMeta Fixtures.one_cached) = (s1, Ok m) ->
     Registry.metas_of Registry.OSMeta s1 = ∅ /\
     Registry.metas_of Registry.Meta s1
       !! (Some (Registry.provider d), Registry.identity d) = Some m).
Proof.
  split; [exact allocated_one_cached|]. split; [discriminate|].
  apply (subclass_reset_is_local (fun _ => Registry.OSMeta) (fun _ d => Ok d)
           Registry.OSMeta Fixtures.one_cached).
  - exact allocated_one_cached.
  - discriminate.
Defined.

Lemma create_meta_is_seen_by_every_class_witness :
  Listing.shared (Provider:=string) (Identity:=string) Registry.initial /\
  exists s1 m,
    Fixtures.create_meta_by_name Registry.EucaMeta Fixtures.os_class_driver None
      Registry.initial = (s1, Ok m) /\
    forall c, Registry.metas_of c s1 !! (Some "OSProvider", "alice") = Some m.
Proof.
  split; [intros c; reflexivity|].
  destruct (Fixtures.create_meta_by_name Registry.EucaMeta Fixtures.os_class_driver None
              Registry.initial) as [s1 [m|e]] eqn:E; [|discriminate E].
  exists s1, m. split; [reflexivity|].
  apply (create_meta_is_seen_by_every_class (fun _ => Registry.OSMeta) (fun _ d => Ok d)
           Registry.EucaMeta Fixtures.os_class_driver None Registry.initial s1 m).
  - intros c. reflexivity.
  - exact E.
Defined.

Lemma failed_admin_driver_caches_nothing_witness :
  Registry.create_admin_driver (fun _ d => Ok d) Registry.Meta Fixtures.os_class_driver
    = Raise NotImplementedError /\
  (exists s1,
     Fixtures.create_meta_base Registry.OSMeta Fixtures.os_class_driver None
       Registry.initial = (s1, Raise NotImplementedError) /\
     forall c, Registry.metas_of c s1 = Registry.metas_of c Registry.initial) /\
  (exists s1,
     Fixtures.get_meta_base Registry.OSMeta Fixtures.os_class_driver Registry.initial
       = (s1, Raise NotImplementedError) /\
     snd (Fixtures.get_meta_base Registry.OSMeta Fixtures.os_class_driver s1)
       = Raise NotImplementedError).
Proof.
  split; [reflexivity|].
  destruct (failed_admin_driver_caches_nothing
              "AWSProvider" "EucaProvider" "OSProvider"
              (fun _ => Registry.Meta) (fun _ d => Ok d)
              Registry.OSMeta Fixtures.os_class_driver Registry.initial
              NotImplementedError eq_refl) as (_ & Hc & Hg & _).
  split; [exact Hc|]. apply Hg. reflexivity.
Defined.

Lemma get_metas_is_the_shared_registry_witness :
  Listing.shared Fixtures.one_cached /\
  Fixtures.get_metas_by_name Fixtures.one_cached =
    Registry.metas_of Registry.Meta Fixtures.one_cached.
Proof.
  split; [intros c; reflexivity|].
  apply (get_metas_is_the_shared_registry "AWSProvider" "EucaProvider" "OSProvider"
           (fun _ => Registry.OSMeta) Fixtures.one_cached).
  intros c. reflexivity.
Defined.

(** ** Fleet operations: order and failures *)

Section FleetMore.
Import Fleet Traces.
Context {W : Type}.
Variable D : driver W.





(** X8. [remove_metadata_deployed] calls [ex_delete_image_metadata]
    exactly when the metadata it read has a non-empty "deployed" value,
    and then on the key "deployed" of that machine; it makes no call
    other than the read and that deletion. *)
Theorem remove_metadata_deployed_deletes_iff_set (machine : string) (w w1 : W)
    (metadata : gmap string string) :
  drv_get_image_metadata D machine w = (w1, Ok metadata) ->
  let calls := calls_of (remove_metadata_deployed D machine) w in
  (ex_delete_image_metadata machine "deployed" ∈ calls <->
     exists v, metadata !! "deployed" = Some v /\ v <> "") /\
  (forall c, c ∈ calls ->
     c = ex_get_image_metadata machine \/
     c = ex_delete_image_metadata machine "deployed").
Proof.
  intros Hget. unfold calls_of, run, remove_metadata_deployed, mbind, M_bind.
  rewrite bind_invoke, Hget. unfold dict_get_truthy.
  destruct (metadata !! "deployed") as [v|] eqn:Ev.
  - destruct (String.eqb_spec v "") as [->|Hne]; simpl.
    + split.
      * split; [by intros ?%list_elem_of_singleton|]. by intros (v & [= <-] & ?).
      * intros c ?%list_elem_of_singleton. by left.
    + unfold invoke. simpl.
      destruct (drv_delete_image_metadata D machine "deployed" w1) as [w2 r]. simpl.
      split.
      * split; [by exists v|]. intros _. right. by left.
      * intros c [->|[->|Hc%elem_of_nil]%elem_of_cons]%elem_of_cons; tauto.
  - simpl. split.
    + split; [by intros ?%list_elem_of_singleton|]. by intros (v & ? & ?).
    + intros c ?%list_elem_of_singleton. by left.
Qed.

Lemma for_each_app {A} (body : A -> M W unit) (l1 l2 : list A) s :
  for_each (l1 ++ l2) body s = bind (for_each l1 body) (fun _ => for_each l2 body) s.
Proof.
  revert s. induction l1 as [|x l1 IH]; intros s; simpl; [done|].
  rewrite bind_assoc. apply bind_ext. intros _ s1. apply IH.
Qed.

(** X9. A failure on one instance aborts the whole operation: when
    [destroy_instance] raises on an instance, in the state the calls on
    the instances listed before it have left, those have been destroyed,
    the instances after it are left untouched, no tenant network is
    deleted, and the exception is the result, in the state the failing
    call left. *)
Theorem failure_aborts_the_bulk_operation (w w1 w2 w3 : W) pre i post e :
  drv_list_all_instances D w = (w1, Ok (pre ++ i :: post)) ->
  thread (drv_destroy_instance D) pre w1 = (w2, Ok tt) ->
  drv_destroy_instance D i w2 = (w3, Raise e) ->
  run (stop_all_instances D true) w =
    ((w3, ex_list_all_instances :: flat_map destroy_calls pre ++ [destroy_instance i]),
     Raise e).
Proof.
  intros Hlist Hpre Hbad. unfold run. rewrite stop_all_instances_true_unfold.
  unfold all_instances. rewrite bind_invoke. rewrite Hlist.
  cbv iota beta. unfold bind at 1. rewrite for_each_app.
  assert (forall tr, for_each pre (destroy_body D) (w1, tr)
                     = ((w2, tr ++ flat_map destroy_calls pre), Ok tt)) as Hloop.
  { intros tr.
    destruct (for_each_threads (destroy_body D) (drv_destroy_instance D)
                (destroy_body_threads D) pre (w1, tr)) as [H1 H2].
    simpl in H1, H2. rewrite Hpre in H1, H2. simpl in H1, H2.
    destruct (for_each pre (destroy_body D) (w1, tr)) as [[w' tr'] r] eqn:E.
    simpl in H1, H2. subst w' r.
    apply (for_each_completes (destroy_body D) destroy_calls
             (destroy_body_completes D)) in E.
    simpl in E. by rewrite E. }
  unfold bind at 1. rewrite Hloop. simpl for_each.
  unfold bind at 1. unfold destroy_body. rewrite bind_invoke. simpl.
  by rewrite Hbad.
Qed.

End FleetMore.

(** The fleet properties on the sample fleets. *)


Lemma remove_metadata_deployed_deletes_iff_set_witness :
  Fleet.drv_get_image_metadata Fixtures.deployed_images "image-1" tt = (tt, Ok {[ "deployed" := "True" ]}) /\
  (Fleet.ex_delete_image_metadata "image-1" "deployed"
     ∈ Fleet.calls_of (Fleet.remove_metadata_deployed Fixtures.deployed_images "image-1") tt <->
   exists v, ({[ "deployed" := "True" ]} : gmap string string) !! "deployed" = Some v /\
             v <> "") /\
  (forall c, c ∈ Fleet.calls_of (Fleet.remove_metadata_deployed Fixtures.deployed_images "image-1") tt ->
     c = Fleet.ex_get_image_metadata "image-1" \/
     c = Fleet.ex_delete_image_metadata "image-1" "deployed").
Proof.
  split; [reflexivity|].
  exact (remove_metadata_deployed_deletes_iff_set Fixtures.deployed_images "image-1" tt tt
           {[ "deployed" := "True" ]} eq_refl).
Defined.

Lemma failure_aborts_the_bulk_operation_witness :
  Fleet.drv_list_all_instances Fixtures.broken_fleet 0
    = (1, Ok ([Sample.vm1] ++ Fixtures.vm_broken :: [Sample.vm3])) /\
  Traces.thread (Fleet.drv_destroy_instance Fixtures.broken_fleet) [Sample.vm1] 1
    = (2, Ok tt) /\
  Fleet.drv_destroy_instance Fixtures.broken_fleet Fixtures.vm_broken 2
    = (3, Raise (DriverError 500)) /\
  Fleet.run (Fleet.stop_all_instances Fixtures.broken_fleet true) 0 =
    ((3, Fleet.ex_list_all_instances :: flat_map Fleet.destroy_calls [Sample.vm1]
         ++ [Fleet.destroy_instance Fixtures.vm_broken]),
     Raise (DriverError 500)).
Proof.
  split; [reflexivity|]. split; [reflexivity|]. split; [reflexivity|].
  exact (failure_aborts_the_bulk_operation Fixtures.broken_fleet 0 1 2 3
           [Sample.vm1] Fixtures.vm_broken [Sample.vm3] (DriverError 500)
           eq_refl eq_refl eq_refl).
Defined.

(** ** Occupancy: whole queries and odd footprints *)

Section CapacityMore.
Import PyNum Capacity Footprints.
Local Open Scope Z_scope.

(** An integer-valued number is that integer, exactly. *)
Lemma int_value_exact v z :
  int_value v = Some z ->
  exists m e, exact_of v = Finite m e /\
    ((0 <= e /\ z = m * 2 ^ e) \/ (e < 0 /\ m = z * 2 ^ (- e))).
Proof.
  unfold int_value. destruct (exact_of v) as [| |m e|]; try done.
  destruct (Z.leb_spec 0 e).
  - intros [= <-]. exists m, e. split; [done|]. left. by split.
  - destruct (Z.eqb_spec (m mod 2 ^ (- e)) 0) as [Hm|]; [|done].
    intros [= <-]. exists m, e. split; [done|]. right. split; [done|].
    assert (0 < 2 ^ (- e)) by (apply Z.pow_pos_nonneg; lia).
    pose proof (Z.div_mod m (2 ^ (- e)) ltac:(lia)). lia.
Qed.

(** On integer-valued numbers Python's [<] is the order of the integers. *)
Lemma py_lt_int_values a b x y :
  int_value a = Some x -> int_value b = Some y -> py_lt a b = (x <? y).
Proof.
  intros (m1 & e1 & Ha & H1)%int_value_exact (m2 & e2 & Hb & H2)%int_value_exact.
  unfold py_lt. rewrite Ha, Hb. simpl.
  set (e := Z.min (Z.min e1 e2) 0).
  rewrite (dyadic_ltb_common m1 e1 m2 e2 e) by (unfold e; lia).
  assert (0 < 2 ^ (- e)) as Hp by (apply Z.pow_pos_nonneg; unfold e; lia).
  assert (forall m e' z, e <= e' -> e <= 0 ->
            ((0 <= e' /\ z = m * 2 ^ e') \/ (e' < 0 /\ m = z * 2 ^ (- e'))) ->
            m * 2 ^ (e' - e) = z * 2 ^ (- e)) as Hc.
  { intros m e' z He He0 [[Hpos ->]|[Hneg ->]].
    - replace (e' - e) with (e' + - e) by lia. rewrite Z.pow_add_r by lia. ring.
    - rewrite <- Z.mul_assoc, <- Z.pow_add_r by lia. f_equal. f_equal. lia. }
  rewrite (Hc m1 e1 x), (Hc m2 e2 y) by (done || unfold e; lia).
  destruct (Z.ltb_spec (x * 2 ^ (- e)) (y * 2 ^ (- e))), (Z.ltb_spec x y);
    try done; nia.
Qed.

Lemma py_min2_int_values a b x y :
  int_value a = Some x -> int_value b = Some y ->
  int_value (py_min2 a b) = Some (Z.min x y).
Proof.
  intros Ha Hb. unfold py_min2. rewrite (py_lt_int_values b a y x Hb Ha).
  destruct (Z.ltb_spec y x).
  - rewrite Hb. f_equal. lia.
  - rewrite Ha. f_equal. lia.
Qed.

Lemma py_min3_int_values a b c x y z :
  int_value a = Some x -> int_value b = Some y -> int_value c = Some z ->
  int_value (py_min3 a b c) = Some (min3 x y z).
Proof.
  intros Ha Hb Hc. unfold py_min3, min3.
  apply py_min2_int_values; [by apply py_min2_int_values|done].
Qed.


Lemma cpu_count_quiet s : 0 < snd (cpu_count s) -> fst (cpu_count s) = [].
Proof.
  unfold cpu_count. destruct (ns_cpu (_size s)); [done|].
  destruct (ns_vcpus (_size s)); [done|]. simpl. lia.
Qed.

Lemma cpu_stats_positive plat s t u f :
  footprint_is CPU s f -> 0 < f ->
  _cpu_stats plat s t u =
    ([], result_bind (float_quotient t f)
           (fun max_ => total_remaining plat max_ t u f)).
Proof.
  intros (Hc & Hcpu) Hf. unfold _cpu_stats.
  pose proof (cpu_count_quiet s) as Hq.
  destruct (cpu_count s) as [w c]. simpl in Hc, Hq. subst c.
  rewrite Hq by done. rewrite Hcpu. by replace (0 <? f) with true by lia.
Qed.

Lemma ram_stats_positive plat s t u f :
  footprint_is RAM s f -> 0 < f ->
  _ram_stats plat s t u =
    result_bind (float_quotient t f) (fun max_ => total_remaining plat max_ t u f).
Proof.
  intros (Hns & Hram) Hf. unfold _ram_stats. rewrite Hns, Hram.
  by replace (0 <? f) with true by lia.
Qed.

Lemma disk_stats_positive plat s t u f :
  footprint_is Disk s f -> 0 < f ->
  _disk_stats plat s t u =
    result_bind (float_quotient t f) (fun max_ => total_remaining plat max_ t u f).
Proof.
  intros Hns Hf. simpl in Hns. unfold _disk_stats. rewrite Hns.
  by replace (0 <? f) with true by lia.
Qed.

Lemma occupancy_of_size_in_range plat occ s :
  in_range occ s ->
  exists tot rem,
    occupancy_of_size plat occ s =
      ([], Ok {| size_name := size_name s; _size := _size s; cpu := cpu s;
                 ram := ram s;
                 extra := <[ "occupancy" := ExtraOccupancy tot rem ]> (extra s) |}) /\
    int_value tot = Some (min3 (fits occ s CPU) (fits occ s RAM) (fits occ s Disk)) /\
    int_value rem =
      Some (min3 (still_fits occ s CPU) (still_fits occ s RAM) (still_fits occ s Disk)).
Proof.
  intros Hr.
  destruct (Hr CPU) as (Hfc & Hc & Htc & Hnc).
  destruct (Hr RAM) as (Hfr & Hrm & Htr & Hnr).
  destruct (Hr Disk) as (Hfd & Hd & Htd & Hnd).
  unfold occupancy_of_size.
  rewrite (cpu_stats_positive plat s _ _ _ Hfc) by lia.
  rewrite (ram_stats_positive plat s _ _ _ Hfr) by lia.
  rewrite (disk_stats_positive plat s _ _ _ Hfd) by lia.
  destruct (stats_positive plat _ _ _ Hc Htc Hnc) as (mc & rc & Ec & Hmc & Hrc).
  destruct (stats_positive plat _ _ _ Hrm Htr Hnr) as (mr & rr & Er & Hmr & Hrr).
  destruct (stats_positive plat _ _ _ Hd Htd Hnd) as (md & rd & Ed & Hmd & Hrd).
  cbn [total_of used_of] in Ec, Er, Ed. rewrite Ec, Er, Ed.
  cbn [result_bind].
  eexists _, _. split; [reflexivity|].
  split; by apply py_min3_int_values.
Qed.

(** X10. On sizes with positive footprints, and counters, below 2^53,
    [occupancy] returns without raising or logging, and the figures it
    stores are integers: the total is the least of the three quotients
    [total / footprint], the remaining count the least of the three
    quotients [(total - used) / footprint]. *)
Theorem occupancy_in_integers plat occ sizes :
  (forall s, s ∈ sizes -> in_range occ s) ->
  exists sizes',
    occupancy plat occ sizes = ([], Ok sizes') /\
    Forall2 (fun s s' =>
      exists tot rem,
        extra s' !! "occupancy" = Some (ExtraOccupancy tot rem) /\
        int_value tot =
          Some (min3 (fits occ s CPU) (fits occ s RAM) (fits occ s Disk)) /\
        int_value rem =
          Some (min3 (still_fits occ s CPU) (still_fits occ s RAM)
                     (still_fits occ s Disk)))
      sizes sizes'.
Proof.
  unfold occupancy. induction sizes as [|s rest IH]; intros Hall; simpl.
  - exists []. split; [done|]. constructor.
  - destruct (occupancy_of_size_in_range plat occ s) as (tot & rem & -> & Ht & Hr).
    { apply Hall. by left. }
    destruct IH as (rest' & -> & HF).
    { intros x Hx. apply Hall. by right. }
    simpl. eexists. split; [reflexivity|]. constructor; [|done].
    exists tot, rem. split; [apply lookup_insert_eq|done].
Qed.

(** X11. [occupancy] changes nothing of a size but the entry "occupancy"
    of its [extra]: the sizes come back in the same order with the same
    name, driver-level size, [cpu], [ram] and other [extra] entries. *)
Theorem occupancy_only_sets_occupancy plat occ sizes w sizes' :
  occupancy plat occ sizes = (w, Ok sizes') ->
  Forall2 (fun s s' =>
    size_name s' = size_name s /\ _size s' = _size s /\
    cpu s' = cpu s /\ ram s' = ram s /\
    is_Some (extra s' !! "occupancy") /\
    forall k, k <> "occupancy" -> extra s' !! k = extra s !! k)
    sizes sizes'.
Proof.
  unfold occupancy. revert w sizes'.
  induction sizes as [|s rest IH]; intros w sizes'; simpl.
  - intros [= _ <-]. constructor.
  - destruct (occupancy_of_size plat occ s) as [w1 [s1|e]] eqn:E1; [|done].
    destruct (occupancy_loop plat occ rest) as [w2 [rest'|e]] eqn:E2; [|done].
    simpl. intros [= _ <-]. constructor; [|by eapply IH].
    clear IH E2. revert E1. unfold occupancy_of_size.
    destruct (_cpu_stats plat s (vcpus occ) (vcpus_used occ)) as [wc [[tc rc]|e]];
      [|done].
    simpl.
    destruct (_ram_stats plat s (memory_mb occ) (memory_mb_used occ)) as [[tr rr]|e];
      [|done].
    simpl.
    destruct (_disk_stats plat s (local_gb occ) (local_gb_used occ)) as [[td rd]|e];
      [|done].
    simpl. intros [= _ <-]. simpl. do 4 (split; [done|]). split.
    + rewrite lookup_insert_eq. by eexists.
    + intros k Hk. by rewrite lookup_insert_ne.
Qed.

Lemma cpu_stats_warnings plat s t u :
  fst (_cpu_stats plat s t u) = if lacks_cpu_value s then [no_cpu_value s] else [].
Proof.
  unfold _cpu_stats, cpu_count, lacks_cpu_value.
  destruct (ns_cpu (_size s)); [done|]. by destruct (ns_vcpus (_size s)).
Qed.

(** X12. When [occupancy] returns, it has logged one warning for each
    size that has neither [cpu] nor [vcpus] on its driver-level size, in
    the order of the sizes, and nothing else. *)
Theorem occupancy_warns_once_per_bare_size plat occ sizes w sizes' :
  occupancy plat occ sizes = (w, Ok sizes') ->
  w = map no_cpu_value (filter (fun s => lacks_cpu_value s = true) sizes).
Proof.
  unfold occupancy. revert w sizes'.
  induction sizes as [|s rest IH]; intros w sizes'; simpl.
  - by intros [= <- _].
  - destruct (occupancy_of_size plat occ s) as [w1 [s1|e]] eqn:E1; [|done].
    destruct (occupancy_loop plat occ rest) as [w2 [rest'|e]] eqn:E2; [|done].
    simpl. intros [= <- _]. rewrite (IH w2 rest' eq_refl).
    assert (w1 = if lacks_cpu_value s then [no_cpu_value s] else []) as ->.
    { rewrite <- (cpu_stats_warnings plat s (vcpus occ) (vcpus_used occ)).
      revert E1. unfold occupancy_of_size.
      destruct (_cpu_stats plat s (vcpus occ) (vcpus_used occ)) as [wc r].
      by intros [= <- _]. }
    rewrite filter_cons. destruct (lacks_cpu_value s) eqn:El.
    + by rewrite decide_True.
    + by rewrite decide_False.
Qed.


Lemma quotient_in_range_negative n f :
  - 2 ^ 53 < n < 2 ^ 53 -> f < 0 -> - 2 ^ 53 < n / f < 2 ^ 53.
Proof.
  intros Hn Hf. rewrite <- (Z.div_opp_opp n f) by lia.
  apply quotient_in_range; lia.
Qed.

Lemma floor_maxint plat : exists mx, floor (PyInt (sys_maxint plat)) = Ok mx.
Proof. destruct plat; eexists; vm_compute; reflexivity. Qed.

Lemma stats_negative plat t u f :
  f < 0 -> - 2 ^ 53 < t - u < 2 ^ 53 ->
  exists mx rem,
    total_remaining plat (PyInt (maxint plat)) t u f = Ok (mx, rem) /\
    floor (PyInt (sys_maxint plat)) = Ok mx /\
    int_value rem = Some ((t - u) / f).
Proof.
  intros Hf Hn. unfold total_remaining.
  replace (f =? 0) with false by lia. cbn [negb]. unfold maxint.
  destruct (floor_maxint plat) as (mx & Hmx). rewrite Hmx. cbn [result_bind].
  destruct (floor_int_exact ((t - u) / f)) as (fr & -> & Hv);
    [by apply quotient_in_range_negative|].
  by exists mx, (PyFloat fr).
Qed.


(** X14. For a size whose driver-level size has neither [cpu] nor
    [vcpus], whatever its own [cpu] attribute, [_cpu_stats] logs one
    warning, divides nothing for the maximum, which is
    [floor(sys.maxint)], and returns [used - total] as the remaining
    count, from the footprint -1 it falls back to. *)
Theorem cpu_stats_without_cpu_value plat s t u :
  lacks_cpu_value s = true ->
  - 2 ^ 53 < t - u < 2 ^ 53 ->
  exists mx rem,
    _cpu_stats plat s t u = ([no_cpu_value s], Ok (mx, rem)) /\
    floor (PyInt (sys_maxint plat)) = Ok mx /\
    int_value rem = Some (u - t).
Proof.
  intros Hl Hn.
  destruct (stats_negative plat t u (-1) ltac:(lia) Hn) as (mx & rem & Hs & Hm & Hr).
  exists mx, rem. split; [|split; [done|]].
  - unfold _cpu_stats, cpu_count. unfold lacks_cpu_value in Hl.
    destruct (ns_cpu (_size s)); [done|]. destruct (ns_vcpus (_size s)); [done|].
    simpl. by rewrite <- Hs.
  - rewrite Hr. f_equal. symmetry. apply Z.div_unique_exact; lia.
Qed.

(** X15. For a size whose attributes agree on the footprint of a
    dimension (the size itself and its driver-level size carry the same
    value), with that footprint positive and below 2^53, counters below
    2^53 and a used count that is not negative, the remaining count of
    the dimension never exceeds its maximum; it is not negative unless
    more is used than there is. *)
Theorem remaining_at_most_maximum plat d occ s f :
  footprint_is d s f ->
  0 < f < 2 ^ 53 ->
  - 2 ^ 53 < total_of d occ < 2 ^ 53 ->
  - 2 ^ 53 < total_of d occ - used_of d occ < 2 ^ 53 ->
  0 <= used_of d occ ->
  exists mx rem,
    dimension_stats plat d occ s = Ok (mx, rem) /\
    py_lt mx rem = false /\
    (used_of d occ <= total_of d occ -> py_lt rem (PyInt 0) = false).
Proof.
  intros Hfp Hf Ht Hn Hu.
  destruct (stats_positive plat _ _ f Hf Ht Hn) as (mx & rem & Hs & Hm & Hr).
  exists (PyFloat mx), (PyFloat rem). split; [|split].
  - rewrite <- Hs. destruct d.
    + simpl. by rewrite (cpu_stats_positive plat s _ _ f Hfp) by lia.
    + simpl. by rewrite (ram_stats_positive plat s _ _ f Hfp) by lia.
    + simpl. by rewrite (disk_stats_positive plat s _ _ f Hfp) by lia.
  - rewrite (py_lt_int_values _ _ _ _ Hm Hr). apply Z.ltb_ge.
    apply Z.div_le_mono; lia.
  - intros Hle. rewrite (py_lt_int_values _ (PyInt 0) _ 0 Hr eq_refl).
    apply Z.ltb_ge. apply Z.div_pos; lia.
Qed.

End CapacityMore.

(** The occupancy properties on sample sizes and counters. *)

Lemma occupancy_in_integers_witness :
  (forall s, s ∈ [Sample.flavor 4 2048 20; Sample.flavor 1 512 10] ->
     Footprints.in_range (Sample.hypervisors 32 16 65536 1024 500 100) s) /\
  exists sizes',
    Capacity.occupancy PyNum.Long64 (Sample.hypervisors 32 16 65536 1024 500 100)
      [Sample.flavor 4 2048 20; Sample.flavor 1 512 10] = ([], Ok sizes') /\
    Forall2 (fun s s' =>
      exists tot rem,
        Capacity.extra s' !! "occupancy" = Some (Capacity.ExtraOccupancy tot rem) /\
        PyNum.int_value tot =
          Some (Footprints.min3
                  (Footprints.fits (Sample.hypervisors 32 16 65536 1024 500 100) s
                     Capacity.CPU)
                  (Footprints.fits (Sample.hypervisors 32 16 65536 1024 500 100) s
                     Capacity.RAM)
                  (Footprints.fits (Sample.hypervisors 32 16 65536 1024 500 100) s
                     Capacity.Disk)) /\
        PyNum.int_value rem =
          Some (Footprints.min3
                  (Footprints.still_fits (Sample.hypervisors 32 16 65536 1024 500 100) s
                     Capacity.CPU)
                  (Footprints.still_fits (Sample.hypervisors 32 16 65536 1024 500 100) s
                     Capacity.RAM)
                  (Footprints.still_fits (Sample.hypervisors 32 16 65536 1024 500 100) s
                     Capacity.Disk)))
      [Sample.flavor 4 2048 20; Sample.flavor 1 512 10] sizes'.
Proof.
  assert (forall s, s ∈ [Sample.flavor 4 2048 20; Sample.flavor 1 512 10] ->
            Footprints.in_range (Sample.hypervisors 32 16 65536 1024 500 100) s) as Hr.
  { intros s Hs. apply elem_of_cons in Hs. destruct Hs as [Hs|Hs].
    - rewrite Hs. intros d. destruct d; simpl; repeat split; lia.
    - apply list_elem_of_singleton in Hs. rewrite Hs.
      intros d. destruct d; simpl; repeat split; lia. }
  split; [exact Hr|].
  exact (occupancy_in_integers PyNum.Long64 _ _ Hr).
Defined.

Lemma occupancy_only_sets_occupancy_witness :
  exists w sizes',
    Capacity.occupancy PyNum.Long64 (Sample.hypervisors 32 16 65536 1024 500 100)
      [Sample.flavor 4 2048 20; Fixtures.bare_flavor 2 512 0] = (w, Ok sizes') /\
    Forall2 (fun s s' =>
      Capacity.size_name s' = Capacity.size_name s /\
      Capacity._size s' = Capacity._size s /\
      Capacity.cpu s' = Capacity.cpu s /\ Capacity.ram s' = Capacity.ram s /\
      is_Some (Capacity.extra s' !! "occupancy") /\
      forall k, k <> "occupancy" -> Capacity.extra s' !! k = Capacity.extra s !! k)
      [Sample.flavor 4 2048 20; Fixtures.bare_flavor 2 512 0] sizes'.
Proof.
  destruct (Capacity.occupancy PyNum.Long64 (Sample.hypervisors 32 16 65536 1024 500 100)
              [Sample.flavor 4 2048 20; Fixtures.bare_flavor 2 512 0])
    as [w [sizes'|e]] eqn:E; [|vm_compute in E; discriminate E].
  exists w, sizes'. split; [reflexivity|].
  exact (occupancy_only_sets_occupancy PyNum.Long64 _ _ w sizes' E).
Defined.

Lemma occupancy_warns_once_per_bare_size_witness :
  exists w sizes',
    Capacity.occupancy PyNum.Long64 (Sample.hypervisors 32 16 65536 1024 500 100)
      [Sample.flavor 4 2048 20; Fixtures.bare_flavor 2 512 0] = (w, Ok sizes') /\
    w = map Capacity.no_cpu_value
          (filter (fun s => Footprints.lacks_cpu_value s = true)
                  [Sample.flavor 4 2048 20; Fixtures.bare_flavor 2 512 0]).
Proof.
  destruct (Capacity.occupancy PyNum.Long64 (Sample.hypervisors 32 16 65536 1024 500 100)
              [Sample.flavor 4 2048 20; Fixtures.bare_flavor 2 512 0])
    as [w [sizes'|e]] eqn:E; [|vm_compute in E; discriminate E].
  exists w, sizes'. split; [reflexivity|].
  exact (occupancy_warns_once_per_bare_size PyNum.Long64 _ _ w sizes' E).
Defined.


Lemma cpu_stats_without_cpu_value_witness :
  Footprints.lacks_cpu_value (Fixtures.bare_flavor 2 2048 20) = true /\
  (- 2 ^ 53 < 32 - 16 < 2 ^ 53)%Z /\
  exists mx rem,
    Capacity._cpu_stats PyNum.Long64 (Fixtures.bare_flavor 2 2048 20) 32 16
      = ([Capacity.no_cpu_value (Fixtures.bare_flavor 2 2048 20)], Ok (mx, rem)) /\
    PyNum.floor (PyNum.PyInt (PyNum.sys_maxint PyNum.Long64)) = Ok mx /\
    PyNum.int_value rem = Some (16 - 32)%Z.
Proof.
  split; [reflexivity|]. split; [lia|].
  apply (cpu_stats_without_cpu_value PyNum.Long64 (Fixtures.bare_flavor 2 2048 20) 32 16).
  - reflexivity.
  - lia.
Defined.

Lemma remaining_at_most_maximum_witness :
  Capacity.footprint_is Capacity.RAM (Sample.flavor 4 2048 20) 2048 /\
  (0 < 2048 < 2 ^ 53)%Z /\
  (- 2 ^ 53 < 65536 < 2 ^ 53)%Z /\
  (- 2 ^ 53 < 65536 - 1024 < 2 ^ 53)%Z /\
  (0 <= 1024)%Z /\
  exists mx rem,
    Capacity.dimension_stats PyNum.Long64 Capacity.RAM
      (Sample.hypervisors 32 16 65536 1024 500 100) (Sample.flavor 4 2048 20)
      = Ok (mx, rem) /\
    PyNum.py_lt mx rem = false /\
    PyNum.py_lt rem (PyNum.PyInt 0) = false.
Proof.
  split; [by split|]. split; [lia|]. split; [lia|]. split; [lia|]. split; [lia|].
  destruct (remaining_at_most_maximum PyNum.Long64 Capacity.RAM
              (Sample.hypervisors 32 16 65536 1024 500 100) (Sample.flavor 4 2048 20)
              2048%Z ltac:(by split) ltac:(lia) ltac:(simpl; lia) ltac:(simpl; lia)
              ltac:(simpl; lia))
    as (mx & rem & H1 & H2 & H3).
  exists mx, rem. split; [exact H1|]. split; [exact H2|]. apply H3. simpl. lia.
Defined.

(** ** Credentials and admin drivers *)

Section CredentialFacts.
Import Credentials.
Variable st : settings.

Lemma split_creds_tenant creds dk ds dt :
  _split_creds (Some creds) dk ds dt =
    if truthy (resolved_tenant creds dt)
    then Returns [dict_get creds "key" dk; dict_get creds "secret" ds;
                  resolved_tenant creds dt]
    else Returns [dict_get creds "key" dk; dict_get creds "secret" ds].
Proof.
  unfold _split_creds, resolved_tenant, dict_get.
  destruct (creds !! "ex_project_name"); [done|].
  by destruct (creds !! "ex_tenant_name").
Qed.

(** X16. With its two settings in place, [EucaMeta.create_admin_driver]
    raises [ValueError] exactly when the credentials name a tenant or
    project that is true (the three values do not unpack into two);
    otherwise it builds the driver from the key and secret of the
    credentials, or of the settings where the credentials have none.
    Called without credentials it raises [AttributeError]. *)
Theorem EucaMeta_admin_driver_rejects_tenants creds dk ds :
  EUCA_ADMIN_KEY st = Some dk ->
  EUCA_ADMIN_SECRET st = Some ds ->
  (EucaMeta_create_admin_driver st (Some creds) = Raises ValueError <->
   truthy (resolved_tenant creds PyNone) = true) /\
  (truthy (resolved_tenant creds PyNone) = false ->
   EucaMeta_create_admin_driver st (Some creds) =
     Returns
       {| driver_provider := self_provider;
          driver_identity :=
            {| identity_provider := self_provider;
               identity_key := dict_get creds "key" dk;
               identity_secret := dict_get creds "secret" ds;
               identity_ex_tenant_name := None |};
          driver_options := ∅ |}) /\
  EucaMeta_create_admin_driver st None = Raises AttributeError.
Proof.
  intros Hk Hs. unfold EucaMeta_create_admin_driver. rewrite Hk, Hs.
  cbn [setting and_then]. rewrite split_creds_tenant.
  destruct (truthy (resolved_tenant creds PyNone)); simpl; repeat split; done.
Qed.

(** X17. With its three settings in place, [OSMeta.create_admin_driver]
    raises [ValueError] exactly when the tenant [_split_creds] settles on
    is not true (the two values do not unpack into three); otherwise the
    admin driver is built on a new [OSProvider], with that tenant and the
    provider options of the Meta object.  With the empty credentials
    [__init__] passes, it succeeds exactly when
    [settings.OPENSTACK_ADMIN_TENANT] is true. *)
Theorem OSMeta_admin_driver_needs_tenant options creds dk ds dt :
  OPENSTACK_ADMIN_KEY st = Some dk ->
  OPENSTACK_ADMIN_SECRET st = Some ds ->
  OPENSTACK_ADMIN_TENANT st = Some dt ->
  (OSMeta_create_admin_driver st options (Some creds) = Raises ValueError <->
   truthy (resolved_tenant creds dt) = false) /\
  (truthy (resolved_tenant creds dt) = true ->
   OSMeta_create_admin_driver st options (Some creds) =
     Returns
       {| driver_provider := new_OSProvider;
          driver_identity :=
            {| identity_provider := new_OSProvider;
               identity_key := dict_get creds "key" dk;
               identity_secret := dict_get creds "secret" ds;
               identity_ex_tenant_name := Some (resolved_tenant creds dt) |};
          driver_options := options |}) /\
  ((exists d, OSMeta_create_admin_driver st options (Some ∅) = Returns d) <->
   truthy dt = true) /\
  OSMeta_create_admin_driver st options None = Raises AttributeError.
Proof.
  intros Hk Hs Ht. unfold OSMeta_create_admin_driver. rewrite Hk, Hs, Ht.
  cbn [setting and_then]. rewrite !split_creds_tenant.
  split; [|split; [|split]].
  - destruct (truthy (resolved_tenant creds dt)); simpl; split; done.
  - by intros ->.
  - change (resolved_tenant ∅ dt) with dt.
    destruct (truthy dt); simpl; split; try done.
    + by eexists.
    + by intros (d & Hd).
  - done.
Qed.

End CredentialFacts.

(** The admin drivers under the sample settings. *)

Lemma EucaMeta_admin_driver_rejects_tenants_witness :
  Credentials.EUCA_ADMIN_KEY Fixtures.configured = Some (Credentials.PyStr "euca-key") /\
  Credentials.EUCA_ADMIN_SECRET Fixtures.configured
    = Some (Credentials.PyStr "euca-secret") /\
  (Credentials.EucaMeta_create_admin_driver Fixtures.configured
     (Some {[ "ex_tenant_name" := Credentials.PyStr "demo" ]})
     = Credentials.Raises Credentials.ValueError <->
   Credentials.truthy
     (Credentials.resolved_tenant {[ "ex_tenant_name" := Credentials.PyStr "demo" ]}
        Credentials.PyNone) = true) /\
  Credentials.EucaMeta_create_admin_driver Fixtures.configured None
    = Credentials.Raises Credentials.AttributeError.
Proof.
  split; [reflexivity|]. split; [reflexivity|].
  destruct (EucaMeta_admin_driver_rejects_tenants Fixtures.configured
              {[ "ex_tenant_name" := Credentials.PyStr "demo" ]}
              (Credentials.PyStr "euca-key") (Credentials.PyStr "euca-secret")
              eq_refl eq_refl) as (H1 & _ & H3).
  split; [exact H1|exact H3].
Defined.

Lemma OSMeta_admin_driver_needs_tenant_witness :
  Credentials.OPENSTACK_ADMIN_KEY Fixtures.configured = Some (Credentials.PyStr "admin") /\
  Credentials.OPENSTACK_ADMIN_SECRET Fixtures.configured
    = Some (Credentials.PyStr "secret") /\
  Credentials.OPENSTACK_ADMIN_TENANT Fixtures.configured
    = Some (Credentials.PyStr "admin-tenant") /\
  ((exists d, Credentials.OSMeta_create_admin_driver Fixtures.configured ∅ (Some ∅)
              = Credentials.Returns d) <->
   Credentials.truthy (Credentials.PyStr "admin-tenant") = true) /\
  Credentials.OSMeta_create_admin_driver Fixtures.configured ∅ None
    = Credentials.Raises Credentials.AttributeError.
Proof.
  split; [reflexivity|]. split; [reflexivity|]. split; [reflexivity|].
  destruct (OSMeta_admin_driver_needs_tenant Fixtures.configured ∅ ∅
              (Credentials.PyStr "admin") (Credentials.PyStr "secret")
              (Credentials.PyStr "admin-tenant") eq_refl eq_refl eq_refl)
    as (_ & _ & H3 & H4).
  split; [exact H3|exact H4].
Defined.
